(** * doc_script: the work-item store, the retry classifier and the Celery tasks

    A shallow embedding of
      - [src/core/database.py]       ([DatabaseManager]),
      - [src/core/error_handler.py]  ([ErrorHandler]),
      - [src/services/file_operations.py] ([FileOperations.download_file],
        [query_files], [_get_file_extension]),
      - [src/services/vectorizer.py] ([vectorize_chunks], [_vectorize_batch]),
      - [src/services/document_converter.py] ([convert_to_markdown]),
      - [src/services/document_chunker.py] ([chunk_markdown] and the chunk
        output file),
      - [src/tasks/tasks.py]         (the Celery tasks),
    and the properties of the pipeline specification checked against them.

    Conventions of the embedding.
      - Python [int] is [Z]; [str] is [string] (a sequence of bytes: a message
        is its UTF-8 encoding, and [str.lower] is modelled on the ASCII
        letters, which is what it does on ASCII and on CJK text);
        [None]-able columns are [option].
      - [datetime] values are microseconds since the epoch, in [Z].
      - The SQL tables are lists of rows in insertion order; the session is
        always committed, and the store itself never fails.
      - Code that can raise runs in the monad [M] (state and exceptions). *)

From Stdlib Require Import ZArith List String Ascii Bool Lia QArith.
Import ListNotations.
Local Open Scope string_scope.
Local Open Scope Z_scope.

(** ** Python values used by the embedding *)

(** [if x:] on an optional string: [None] and the empty string are falsy. *)
Definition truthy (s : option string) : bool :=
  match s with
  | None => false
  | Some EmptyString => false
  | Some _ => true
  end.

(** [a or b] on optional strings. *)
Definition py_or (a b : option string) : option string :=
  if truthy a then a else b.

(** ASCII part of [str.lower]. *)
Definition lower_ascii (c : ascii) : ascii :=
  let n := N_of_ascii c in
  if ((65 <=? n) && (n <=? 90))%N then ascii_of_N (n + 32) else c.

Fixpoint lower (s : string) : string :=
  match s with
  | EmptyString => EmptyString
  | String c s' => String (lower_ascii c) (lower s')
  end.

(** [k in s] on strings: [k] occurs in [s] as a contiguous substring. *)
Fixpoint contains (k s : string) : bool :=
  String.prefix k s ||
  match s with
  | EmptyString => false
  | String _ s' => contains k s'
  end.

(** ** Exceptions

    The classes are those of the Python standard library and of
    [requests.exceptions] that the code names or raises; [bases] is their
    declared parent list. *)

Inductive exc_class : Type :=
| C_Exception
| C_ValueError
| C_AttributeError
| C_RuntimeError
| C_ArithmeticError
| C_ZeroDivisionError
| C_OSError
| C_FileNotFoundError
| C_ConnectionError          (* builtin *)
| C_ConnectionRefusedError   (* builtin *)
| C_TimeoutError             (* builtin *)
| C_RequestException         (* requests.exceptions.RequestException *)
| C_ReqConnectionError       (* requests.exceptions.ConnectionError *)
| C_ReqTimeout               (* requests.exceptions.Timeout *)
| C_ReqHTTPError             (* requests.exceptions.HTTPError *)
| C_ReqConnectTimeout        (* requests.exceptions.ConnectTimeout *)
| C_ReqReadTimeout.          (* requests.exceptions.ReadTimeout *)

Definition exc_class_eqb (a b : exc_class) : bool :=
  match a, b with
  | C_Exception, C_Exception | C_ValueError, C_ValueError
  | C_AttributeError, C_AttributeError | C_RuntimeError, C_RuntimeError
  | C_ArithmeticError, C_ArithmeticError
  | C_ZeroDivisionError, C_ZeroDivisionError
  | C_OSError, C_OSError | C_FileNotFoundError, C_FileNotFoundError
  | C_ConnectionError, C_ConnectionError
  | C_ConnectionRefusedError, C_ConnectionRefusedError
  | C_TimeoutError, C_TimeoutError
  | C_RequestException, C_RequestException
  | C_ReqConnectionError, C_ReqConnectionError
  | C_ReqTimeout, C_ReqTimeout | C_ReqHTTPError, C_ReqHTTPError
  | C_ReqConnectTimeout, C_ReqConnectTimeout
  | C_ReqReadTimeout, C_ReqReadTimeout => true
  | _, _ => false
  end.

Definition bases (c : exc_class) : list exc_class :=
  match c with
  | C_Exception => []
  | C_ValueError | C_AttributeError | C_RuntimeError | C_OSError
  | C_ArithmeticError => [C_Exception]
  | C_ZeroDivisionError => [C_ArithmeticError]
  | C_FileNotFoundError | C_ConnectionError | C_TimeoutError => [C_OSError]
  | C_ConnectionRefusedError => [C_ConnectionError]
  | C_RequestException => [C_OSError]
  | C_ReqConnectionError | C_ReqTimeout | C_ReqHTTPError => [C_RequestException]
  | C_ReqConnectTimeout => [C_ReqConnectionError; C_ReqTimeout]
  | C_ReqReadTimeout => [C_ReqTimeout]
  end.

(** [issubclass(c, d)], searching the parents to the depth of the hierarchy. *)
Fixpoint issubclass_fuel (fuel : nat) (c d : exc_class) : bool :=
  exc_class_eqb c d ||
  match fuel with
  | O => false
  | S fuel' => existsb (fun b => issubclass_fuel fuel' b d) (bases c)
  end.

Definition issubclass : exc_class -> exc_class -> bool := issubclass_fuel 5.

(** [type(error).__name__] *)
Definition class_name (c : exc_class) : string :=
  match c with
  | C_Exception => "Exception"
  | C_ValueError => "ValueError"
  | C_AttributeError => "AttributeError"
  | C_RuntimeError => "RuntimeError"
  | C_ArithmeticError => "ArithmeticError"
  | C_ZeroDivisionError => "ZeroDivisionError"
  | C_OSError => "OSError"
  | C_FileNotFoundError => "FileNotFoundError"
  | C_ConnectionError => "ConnectionError"
  | C_ConnectionRefusedError => "ConnectionRefusedError"
  | C_TimeoutError => "TimeoutError"
  | C_RequestException => "RequestException"
  | C_ReqConnectionError => "ConnectionError"
  | C_ReqTimeout => "Timeout"
  | C_ReqHTTPError => "HTTPError"
  | C_ReqConnectTimeout => "ConnectTimeout"
  | C_ReqReadTimeout => "ReadTimeout"
  end.

(** An exception object: its class, [str(error)] and the formatted traceback. *)
Record exn : Type := mk_exn {
  exc_type : exc_class;
  exc_msg : string;
  exc_tb : string
}.

(** [Exception(msg)] *)
Definition Exception (msg : string) : exn := mk_exn C_Exception msg EmptyString.

Definition isinstance (e : exn) (c : exc_class) : bool :=
  issubclass (exc_type e) c.

(** ** The tables of [src/core/database.py] *)

(** A row of [file_processing_status].  The columns [id], [file_size],
    [file_type], [metadata_json] and the six timing columns are written but
    never read by the operations below, and are left out. *)
Record FileProcessingStatus : Type := mk_file {
  file_id : string;
  file_name : string;
  file_url : option string;
  status : string;
  created_at : Z;
  updated_at : Z;
  download_path : option string;
  markdown_path : option string;
  chunk_count : Z;
  vector_count : Z;
  error_message : option string;
  retry_count : Z
}.

(** The [error_info] dictionary of [ErrorHandler.handle_task_error]; the keys
    [should_retry] and [retry_delay] are absent until the handler sets them. *)
Record error_info : Type := mk_error_info {
  ei_error_type : string;
  ei_error_message : string;
  ei_file_id : string;
  ei_task_name : string;
  ei_retry_count : Z;
  ei_traceback : string;
  ei_should_retry : option bool;
  ei_retry_delay : option Z
}.

(** A row of [processing_logs]; [extra_data] holds the dictionary that
    [json.dumps] serialises at the time of the call. *)
Record ProcessingLog : Type := mk_log {
  log_file_id : string;
  log_task_id : option string;
  log_level : string;
  log_message : string;
  log_timestamp : Z;
  log_extra_data : option error_info
}.

(** The keyword arguments [**kwargs] of [update_status].  [file_id], [status]
    and [error_message] are named parameters of the method, so Python rejects
    them as extra keywords; [kw_other] is a keyword that names a column left
    out of the model, or no attribute of the row at all. *)
Inductive kwarg : Type :=
| kw_file_name (v : string)
| kw_file_url (v : option string)
| kw_created_at (v : Z)
| kw_updated_at (v : Z)
| kw_download_path (v : option string)
| kw_markdown_path (v : option string)
| kw_chunk_count (v : Z)
| kw_vector_count (v : Z)
| kw_retry_count (v : Z)
| kw_other (key : string).

(** A message on the broker: [task.delay(args)]. *)
Inductive task_call : Type :=
| call_download_file (fid : string) (url : option string) (name : string)
| call_convert_document (fid : string) (path : option string)
| call_chunk_document (fid : string) (path : option string) (use_semantic : bool)
| call_vectorize_chunks (fid : string) (chunks : list string)
| call_save_data (fid : string) (vectorized : option Z)
| call_process_single_file (fid : string).

(** The state the code runs against: the two tables, the files on disk, the
    clock read by [datetime.utcnow()], and the messages sent to the broker. *)
Record World : Type := mk_world {
  files : list FileProcessingStatus;
  logs : list ProcessingLog;
  disk : list string;
  clock : Z;
  queue : list task_call
}.

Definition with_files (w : World) (fl : list FileProcessingStatus) : World :=
  mk_world fl (logs w) (disk w) (clock w) (queue w).
Definition with_logs (w : World) (lg : list ProcessingLog) : World :=
  mk_world (files w) lg (disk w) (clock w) (queue w).
Definition with_disk (w : World) (d : list string) : World :=
  mk_world (files w) (logs w) d (clock w) (queue w).
Definition with_clock (w : World) (t : Z) : World :=
  mk_world (files w) (logs w) (disk w) t (queue w).
Definition with_queue (w : World) (q : list task_call) : World :=
  mk_world (files w) (logs w) (disk w) (clock w) q.

(** ** The monad of state and exceptions *)

Inductive result (A : Type) : Type :=
| Return (a : A)
| Raise (e : exn).
Arguments Return {A} a.
Arguments Raise {A} e.

Definition M (A : Type) : Type := World -> result A * World.

Definition ret {A} (a : A) : M A := fun w => (Return a, w).
Definition raise {A} (e : exn) : M A := fun w => (Raise e, w).
Definition bind {A B} (m : M A) (k : A -> M B) : M B :=
  fun w => match m w with
           | (Return a, w') => k a w'
           | (Raise e, w') => (Raise e, w')
           end.
(** [try: m except Exception as e: h e] *)
Definition try_except {A} (m : M A) (h : exn -> M A) : M A :=
  fun w => match m w with
           | (Return a, w') => (Return a, w')
           | (Raise e, w') => h e w'
           end.
Definition gets {A} (f : World -> A) : M A := fun w => (Return (f w), w).
Definition modify (f : World -> World) : M unit := fun w => (Return tt, f w).

Declare Scope monad_scope.
Delimit Scope monad_scope with monad.
Notation "x <- m ;; k" := (bind m (fun x => k))
  (at level 61, m at next level, right associativity) : monad_scope.
Notation "m ;;; k" := (bind m (fun _ => k))
  (at level 61, right associativity) : monad_scope.
Local Open Scope monad_scope.

(** Time passing outside the code (a collaborator call, a countdown). *)
Definition elapse (dt : Z) : M unit := modify (fun w => with_clock w (clock w + dt)).

(** ** [DatabaseManager] *)

Definition set_status (r : FileProcessingStatus) (s : string) (now : Z)
  : FileProcessingStatus :=
  mk_file (file_id r) (file_name r) (file_url r) s (created_at r) now
          (download_path r) (markdown_path r) (chunk_count r) (vector_count r)
          (error_message r) (retry_count r).

Definition set_error (r : FileProcessingStatus) (msg : option string)
  : FileProcessingStatus :=
  mk_file (file_id r) (file_name r) (file_url r) (status r) (created_at r)
          (updated_at r) (download_path r) (markdown_path r) (chunk_count r)
          (vector_count r) msg (retry_count r + 1).

(** [setattr(file_status, key, value)] for one keyword of [**kwargs]. *)
Definition setattr (r : FileProcessingStatus) (kw : kwarg) : FileProcessingStatus :=
  match kw with
  | kw_file_name v =>
      mk_file (file_id r) v (file_url r) (status r) (created_at r) (updated_at r)
              (download_path r) (markdown_path r) (chunk_count r) (vector_count r)
              (error_message r) (retry_count r)
  | kw_file_url v =>
      mk_file (file_id r) (file_name r) v (status r) (created_at r) (updated_at r)
              (download_path r) (markdown_path r) (chunk_count r) (vector_count r)
              (error_message r) (retry_count r)
  | kw_created_at v =>
      mk_file (file_id r) (file_name r) (file_url r) (status r) v (updated_at r)
              (download_path r) (markdown_path r) (chunk_count r) (vector_count r)
              (error_message r) (retry_count r)
  | kw_updated_at v =>
      mk_file (file_id r) (file_name r) (file_url r) (status r) (created_at r) v
              (download_path r) (markdown_path r) (chunk_count r) (vector_count r)
              (error_message r) (retry_count r)
  | kw_download_path v =>
      mk_file (file_id r) (file_name r) (file_url r) (status r) (created_at r)
              (updated_at r) v (markdown_path r) (chunk_count r) (vector_count r)
              (error_message r) (retry_count r)
  | kw_markdown_path v =>
      mk_file (file_id r) (file_name r) (file_url r) (status r) (created_at r)
              (updated_at r) (download_path r) v (chunk_count r) (vector_count r)
              (error_message r) (retry_count r)
  | kw_chunk_count v =>
      mk_file (file_id r) (file_name r) (file_url r) (status r) (created_at r)
              (updated_at r) (download_path r) (markdown_path r) v (vector_count r)
              (error_message r) (retry_count r)
  | kw_vector_count v =>
      mk_file (file_id r) (file_name r) (file_url r) (status r) (created_at r)
              (updated_at r) (download_path r) (markdown_path r) (chunk_count r) v
              (error_message r) (retry_count r)
  | kw_retry_count v =>
      mk_file (file_id r) (file_name r) (file_url r) (status r) (created_at r)
              (updated_at r) (download_path r) (markdown_path r) (chunk_count r)
              (vector_count r) (error_message r) v
  | kw_other _ => r
  end.

(** The body of [update_status] on the row it found. *)
Definition apply_update (now : Z) (new_status : string)
    (msg : option string) (kwargs : list kwarg) (r : FileProcessingStatus)
  : FileProcessingStatus :=
  let r1 := set_status r new_status now in
  let r2 := if truthy msg then set_error r1 msg else r1 in
  fold_left setattr kwargs r2.

(** [query(...).filter_by(file_id=fid).first()] *)
Fixpoint find_file (fid : string) (l : list FileProcessingStatus)
  : option FileProcessingStatus :=
  match l with
  | [] => None
  | r :: l' => if String.eqb (file_id r) fid then Some r else find_file fid l'
  end.

(** The row that [first()] returned is mutated in place. *)
Fixpoint update_first (fid : string) (f : FileProcessingStatus -> FileProcessingStatus)
    (l : list FileProcessingStatus) : list FileProcessingStatus :=
  match l with
  | [] => []
  | r :: l' => if String.eqb (file_id r) fid then f r :: l'
               else r :: update_first fid f l'
  end.

(** [DatabaseManager.add_file]; the row gets the column defaults. *)
Definition add_file (fid name : string) (url : option string)
  : M FileProcessingStatus :=
  fun w =>
    let r := mk_file fid name url "pending" (clock w) (clock w)
                     None None 0 0 None 0 in
    (Return r, with_files w (files w ++ [r])).

(** [DatabaseManager.update_status] *)
Definition update_status (fid new_status : string) (msg : option string)
    (kwargs : list kwarg) : M bool :=
  fun w =>
    match find_file fid (files w) with
    | Some _ =>
        (Return true,
         with_files w (update_first fid (apply_update (clock w) new_status msg kwargs)
                                    (files w)))
    | None => (Return false, w)
    end.

(** [DatabaseManager.get_file_status] *)
Definition get_file_status (fid : string) : M (option FileProcessingStatus) :=
  gets (fun w => find_file fid (files w)).

(** [DatabaseManager.get_files_by_status] *)
Definition get_files_by_status (s : string) : M (list FileProcessingStatus) :=
  gets (fun w => filter (fun r => String.eqb (status r) s) (files w)).

(** [DatabaseManager.get_failed_files] *)
Definition get_failed_files : M (list FileProcessingStatus) :=
  get_files_by_status "failed".

(** [DatabaseManager.add_log] *)
Definition add_log (fid level message : string) (task_id : option string)
    (extra : option error_info) : M unit :=
  modify (fun w => with_logs w (logs w ++ [mk_log fid task_id level message (clock w) extra])).

(** [DatabaseManager.get_file_logs]; the log is appended in time order. *)
Definition get_file_logs (fid : string) : M (list ProcessingLog) :=
  gets (fun w => filter (fun l => String.eqb (log_file_id l) fid) (logs w)).

(** The dictionary returned by [get_statistics].  [success_rate] is the
    exact rational that the Python float rounds. *)
Record statistics : Type := mk_statistics {
  total_files : Z;
  completed_files : Z;
  failed_files : Z;
  pending_files : Z;
  processing_files : Z;
  success_rate : Q
}.

(** [a / b] on Python integers: raises [ZeroDivisionError] when [b] is 0. *)
Definition py_truediv (a b : Z) : M Q :=
  if b =? 0 then raise (mk_exn C_ZeroDivisionError "division by zero" EmptyString)
  else ret (inject_Z a / inject_Z b)%Q.

(** [query(...).filter_by(status=s).count()] *)
Definition count_status (s : string) (l : list FileProcessingStatus) : Z :=
  Z.of_nat (List.length (filter (fun r => String.eqb (status r) s) l)).

(** [status.in_([...])] *)
Definition status_in (l : list string) (r : FileProcessingStatus) : bool :=
  existsb (String.eqb (status r)) l.

(** [DatabaseManager.get_statistics] *)
Definition get_statistics : M statistics :=
  total <- gets (fun w => Z.of_nat (List.length (files w))) ;;
  completed <- gets (fun w => count_status "completed" (files w)) ;;
  failed <- gets (fun w => count_status "failed" (files w)) ;;
  pending <- gets (fun w => count_status "pending" (files w)) ;;
  processing <- gets (fun w => Z.of_nat (List.length (filter
      (status_in ["downloading"; "converting"; "chunking"; "vectorizing"; "saving"])
      (files w)))) ;;
  rate <- (if total >? 0
           then q <- py_truediv completed total ;; ret (q * inject_Z 100)%Q
           else ret (inject_Z 0)) ;;
  ret (mk_statistics total completed failed pending processing rate).

(** ** [src/core/config.py] *)

(** [MAX_RETRIES], when the environment does not override it. *)
Definition MAX_RETRIES : Z := 3.
(** [DOWNLOAD_DIR] and [OUTPUT_DIR], as [pathlib] prints them. *)
Definition DOWNLOAD_DIR : string := "downloads".
Definition OUTPUT_DIR : string := "outputs".

(** ** [ErrorHandler]

    [max_retries] is the attribute [self.max_retries] of the handler. *)

(** The tuple [retryable_errors]. *)
Definition retryable_errors : list exc_class :=
  [C_ConnectionError; C_TimeoutError; C_RequestException;
   C_ReqConnectionError; C_ReqTimeout; C_ReqHTTPError].

(** The list [retryable_keywords]. *)
Definition retryable_keywords : list string :=
  ["timeout"; "connection"; "network"; "temporary"; "service unavailable";
   "internal server error"; "bad gateway"; "gateway timeout"].

(** [isinstance(error, classes)] with a tuple of classes. *)
Definition isinstance_any (e : exn) (classes : list exc_class) : bool :=
  existsb (isinstance e) classes.

(** The loop [for keyword in retryable_keywords: if keyword in error_message:
    return True], falling through to [return False]. *)
Fixpoint keyword_loop (keywords : list string) (error_message : string) : bool :=
  match keywords with
  | [] => false
  | keyword :: rest =>
      if contains keyword error_message then true
      else keyword_loop rest error_message
  end.

(** [ErrorHandler._should_retry] *)
Definition _should_retry (max_retries : Z) (error : exn) (retry_count : Z) : bool :=
  if retry_count >=? max_retries then false
  else if isinstance_any error retryable_errors then true
  else keyword_loop retryable_keywords (lower (exc_msg error)).

(** [ErrorHandler._calculate_retry_delay], for [retry_count >= 0]: with a
    negative count Python's [2 ** retry_count] is a float, which is outside
    this model. *)
Definition _calculate_retry_delay (retry_count : Z) : Z :=
  let base_delay := 60 in
  let max_delay := 600 in
  Z.min (base_delay * 2 ^ retry_count) max_delay.

(** [ErrorHandler.handle_task_error] *)
Definition handle_task_error (max_retries : Z) (error : exn)
    (fid task_name : string) (retry_count : Z) : M error_info :=
  let info := mk_error_info (class_name (exc_type error)) (exc_msg error)
                            fid task_name retry_count (exc_tb error) None None in
  add_log fid "ERROR" ("任务错误: " ++ task_name ++ " - " ++ exc_msg error)
          None (Some info) ;;;
  let should_retry := _should_retry max_retries error retry_count in
  if should_retry then
    ret (mk_error_info (ei_error_type info) (ei_error_message info) fid task_name
                       retry_count (ei_traceback info) (Some true)
                       (Some (_calculate_retry_delay retry_count)))
  else
    update_status fid "failed" (Some (exc_msg error)) [] ;;;
    ret (mk_error_info (ei_error_type info) (ei_error_message info) fid task_name
                       retry_count (ei_traceback info) (Some false) None).

(** [os.path.exists] and [os.remove] on the modelled disk. *)
Definition os_path_exists (p : string) : M bool :=
  gets (fun w => existsb (String.eqb p) (disk w)).
Definition os_remove (p : string) : M unit :=
  modify (fun w => with_disk w (filter (fun q => negb (String.eqb p q)) (disk w))).

(** [if path: if os.path.exists(path): os.remove(path)] *)
Definition remove_if_exists (path : option string) : M unit :=
  match path with
  | Some p =>
      if truthy path then
        ex <- os_path_exists p ;;
        if ex then os_remove p else ret tt
      else ret tt
  | None => ret tt
  end.

(** [session.delete(file_status)]; rows are identified by their unique
    [file_id]. *)
Definition session_delete (r : FileProcessingStatus) : M unit :=
  modify (fun w => with_files w
     (filter (fun x => negb (String.eqb (file_id x) (file_id r))) (files w))).

(** The loop of [cleanup_failed_files] over the rows selected for cleaning. *)
Fixpoint cleanup_loop (failed : list FileProcessingStatus) (cleaned_count : Z) : M Z :=
  match failed with
  | [] => ret cleaned_count
  | file_status :: rest =>
      remove_if_exists (download_path file_status) ;;;
      remove_if_exists (markdown_path file_status) ;;;
      session_delete file_status ;;;
      cleanup_loop rest (cleaned_count + 1)
  end.

(** [timedelta(hours=h)] in microseconds. *)
Definition timedelta_hours (h : Z) : Z := h * 3600 * 1000000.

(** The filter of the cleanup query. *)
Definition cleanup_selects (cutoff_time : Z) (r : FileProcessingStatus) : bool :=
  String.eqb (status r) "failed" && (updated_at r <? cutoff_time).

(** [ErrorHandler.cleanup_failed_files] *)
Definition cleanup_failed_files (older_than_hours : Z) : M Z :=
  now <- gets clock ;;
  let cutoff_time := now - timedelta_hours older_than_hours in
  failed <- gets (fun w => filter (cleanup_selects cutoff_time) (files w)) ;;
  cleanup_loop failed 0.

(** ** The stage executors of [src/services]

    One run of an executor calls its external collaborator once.  What the
    collaborator did during that run is an [attempt]: the time it took and
    either its result or the exception it raised.  Formatted sizes and
    durations are left out of log messages. *)

Record attempt (B : Type) : Type := mk_attempt {
  took : Z;
  outcome : result B
}.
Arguments mk_attempt {B} took outcome.
Arguments took {B} a.
Arguments outcome {B} a.

(** [open(path, 'w')]: the file exists afterwards. *)
Definition write_file (p : string) : M unit :=
  modify (fun w => with_disk w
     (if existsb (String.eqb p) (disk w) then disk w else disk w ++ [p])).

Module FileOperations.

(** The [try] block of [download_file].  The collaborator's result is the name
    under which the response body is saved. *)
Definition download_file_try (fid : string) (url name : option string)
    (net : attempt string) : M string :=
  update_status fid "downloading" None [] ;;;
  add_log fid "INFO" ("开始下载文件: " ++ fid) None None ;;;
  file_status <- get_file_status fid ;;
  match file_status with
  | None => raise (Exception ("文件状态不存在: " ++ fid))
  | Some row =>
      let download_url := py_or url (file_url row) in
      if negb (truthy download_url)
      then raise (Exception ("文件下载URL不存在: " ++ fid))
      else
        elapse (took net) ;;;
        match outcome net with
        | Raise e => raise e
        | Return saved_name =>
            let download_path :=
              DOWNLOAD_DIR ++ "/temp/" ++ fid ++ "_" ++ saved_name in
            write_file download_path ;;;
            update_status fid "downloaded" None
              [kw_download_path (Some download_path); kw_other "download_time"] ;;;
            add_log fid "INFO" ("文件下载完成: " ++ saved_name) None None ;;;
            ret download_path
        end
  end.

(** [FileOperations.download_file], with its two [except] clauses. *)
Definition download_file (fid : string) (url name : option string)
    (net : attempt string) : M string :=
  try_except (download_file_try fid url name net)
    (fun e =>
       let error_msg :=
         (if isinstance e C_RequestException
          then "下载文件失败: " else "下载文件时发生未知错误: ") ++ exc_msg e in
       update_status fid "failed" (Some error_msg) [] ;;;
       add_log fid "ERROR" error_msg None None ;;;
       raise (Exception error_msg)).

End FileOperations.

Module DocumentConverter.

(** [self.output_dir / f"{file_id}.md"] *)
Definition output_path (fid : string) : string :=
  OUTPUT_DIR ++ "/markdown/" ++ fid ++ ".md".

(** The [try] block of [convert_to_markdown].  The collaborator's result
    tells whether the conversion produced a document. *)
Definition convert_to_markdown_try (file_path fid : string)
    (converter : attempt bool) : M string :=
  update_status fid "converting" None [] ;;;
  add_log fid "INFO" ("开始转换文档: " ++ fid ++ ", 文件路径: " ++ file_path)
          None None ;;;
  source_exists <- os_path_exists file_path ;;
  if negb source_exists
  then raise (Exception ("源文件不存在: " ++ file_path))
  else
    elapse (took converter) ;;;
    match outcome converter with
    | Raise e => raise e
    | Return has_document =>
        if has_document then
          write_file (output_path fid) ;;;
          update_status fid "converted" None
            [kw_markdown_path (Some (output_path fid)); kw_other "convert_time"] ;;;
          add_log fid "INFO" ("文档转换完成: " ++ fid) None None ;;;
          ret (output_path fid)
        else raise (Exception "Docling转换失败：未获取到转换结果")
    end.

(** [DocumentConverter.convert_to_markdown] *)
Definition convert_to_markdown (file_path fid : string)
    (converter : attempt bool) : M string :=
  try_except (convert_to_markdown_try file_path fid converter)
    (fun e =>
       let error_msg := "文档转换失败: " ++ exc_msg e in
       update_status fid "failed" (Some error_msg) [] ;;;
       add_log fid "ERROR" error_msg None None ;;;
       raise (Exception error_msg)).

End DocumentConverter.

Module DocumentChunker.

(** [self.output_dir / f"{file_id}_chunks.json"] *)
Definition chunks_file (fid : string) : string :=
  OUTPUT_DIR ++ "/chunks/" ++ fid ++ "_chunks.json".

(** The [try] block of [chunk_markdown].  The collaborator's result is the
    list of chunk texts the splitter produced. *)
Definition chunk_markdown_try (markdown_path fid : string)
    (splitter : attempt (list string)) : M (list string) :=
  update_status fid "chunking" None [] ;;;
  add_log fid "INFO" ("开始切片文档: " ++ fid ++ ", 文件路径: " ++ markdown_path)
          None None ;;;
  md_exists <- os_path_exists markdown_path ;;
  if negb md_exists
  then raise (Exception ("Markdown文件不存在: " ++ markdown_path))
  else
    elapse (took splitter) ;;;
    match outcome splitter with
    | Raise e => raise e
    | Return chunks =>
        write_file (chunks_file fid) ;;;
        update_status fid "chunked" None
          [kw_chunk_count (Z.of_nat (List.length chunks)); kw_other "chunk_time"] ;;;
        add_log fid "INFO" ("文档切片完成: " ++ fid) None None ;;;
        ret chunks
    end.

(** [DocumentChunker.chunk_markdown] *)
Definition chunk_markdown (markdown_path fid : string)
    (splitter : attempt (list string)) : M (list string) :=
  try_except (chunk_markdown_try markdown_path fid splitter)
    (fun e =>
       let error_msg := "文档切片失败: " ++ exc_msg e in
       update_status fid "failed" (Some error_msg) [] ;;;
       add_log fid "ERROR" error_msg None None ;;;
       raise (Exception error_msg)).

End DocumentChunker.

(** ** The stage tasks of [src/tasks/tasks.py] *)

(** How one execution of a Celery task ends: it returns its success
    dictionary, returns its failure dictionary, or raises [self.retry]. *)
Inductive task_exit (A : Type) : Type :=
| Succeeded (a : A)
| Failed (info : error_info)
| Retry (countdown : Z).
Arguments Succeeded {A} a.
Arguments Failed {A} info.
Arguments Retry {A} countdown.

(** [error_info.get('should_retry', False)] and
    [error_info.get('retry_delay', 60)] *)
Definition get_should_retry (info : error_info) : bool :=
  match ei_should_retry info with Some b => b | None => false end.
Definition get_retry_delay (info : error_info) : Z :=
  match ei_retry_delay info with Some d => d | None => 60 end.

(** The end of every task's [except] block: retry or return the failure. *)
Definition retry_or_fail {A} (task_max_retries retries : Z) (info : error_info)
  : task_exit A :=
  if get_should_retry info && (retries <? task_max_retries)
  then Retry (get_retry_delay info)
  else Failed info.

Module Tasks.

(** [@celery_app.task(bind=True, max_retries=3)] *)
Definition task_max_retries : Z := 3.

(** The [try]/[except] frame the five stage tasks share: run the executor;
    on an exception consult the error handler with [self.request.retries]. *)
Definition stage_task {A} (handler_max_retries : Z) (task_name fid : string)
    (retries : Z) (executor : M A) : M (task_exit A) :=
  try_except (a <- executor ;; ret (Succeeded a))
    (fun e =>
       info <- handle_task_error handler_max_retries e fid task_name retries ;;
       ret (retry_or_fail task_max_retries retries info)).

(** The task [download_file] *)
Definition download_file (handler_max_retries retries : Z) (fid : string)
    (url name : option string) (net : attempt string) : M (task_exit string) :=
  stage_task handler_max_retries "download_file" fid retries
             (FileOperations.download_file fid url name net).

(** The task [chunk_document] *)
Definition chunk_document (handler_max_retries retries : Z) (fid : string)
    (markdown_path : string) (splitter : attempt (list string))
  : M (task_exit (list string)) :=
  stage_task handler_max_retries "chunk_document" fid retries
             (DocumentChunker.chunk_markdown markdown_path fid splitter).

End Tasks.

(** Celery's delivery of one task with its retries: each execution meets the
    next attempt of the collaborator; [self.retry(countdown)] schedules the
    next execution after the countdown, with [request.retries] one higher.
    The result is the exit of the last execution and its [request.retries];
    [None] when no execution took place.  Every caller in the repository
    passes the task arguments by position, so the prerun and postrun signal
    handlers of [celery_app.py], which look for a [file_id] keyword, write
    nothing. *)
Fixpoint celery_deliver {A B} (body : Z -> attempt B -> M (task_exit A))
    (retries : Z) (attempts : list (attempt B)) : M (option (task_exit A * Z)) :=
  match attempts with
  | [] => ret None
  | a :: rest =>
      exit <- body retries a ;;
      match exit, rest with
      | Retry countdown, _ :: _ =>
          elapse countdown ;;;
          celery_deliver body (retries + 1) rest
      | _, _ => ret (Some (exit, retries))
      end
  end.

(** ** Tasks that dispatch other tasks

    [process_single_file] and [retry_failed_files] talk to the broker.  Their
    bodies are trees of the calls they make to their environment: the store,
    the error handler, [task.delay(...)], and [AsyncResult.get(timeout)],
    which suspends the running task until the sub-task's result arrives. *)

(** The handle [task.delay] returns: the identifier of the dispatched task. *)
Definition AsyncResult : Type := Z.

Inductive celeryE : Type -> Type :=
| E_get_file_status (fid : string) : celeryE (option FileProcessingStatus)
| E_get_failed_files : celeryE (list FileProcessingStatus)
| E_update_status (fid new_status : string) (msg : option string)
                  (kwargs : list kwarg) : celeryE bool
| E_handle_task_error (e : exn) (fid task_name : string) (retries : Z)
    : celeryE error_info
| E_get_chunks_from_file (fid : string) : celeryE (option (list string))
| E_get_vectorization_info (fid : string) : celeryE (option Z)
| E_delay (c : task_call) : celeryE AsyncResult
| E_result_get (h : AsyncResult) (timeout : Z) : celeryE (result bool).

Inductive task (R : Type) : Type :=
| Done (r : R)
| Vis {A : Type} (e : celeryE A) (k : A -> task R).
Arguments Done {R} r.
Arguments Vis {R A} e k.

Fixpoint tbind {A B} (t : task A) (k : A -> task B) : task B :=
  match t with
  | Done a => k a
  | Vis e k' => Vis e (fun x => tbind (k' x) k)
  end.

(** A call that returns normally. *)
Definition call {A} (e : celeryE A) : task (result A) :=
  Vis e (fun a => Done (Return a)).

(** [AsyncResult.get(timeout)]: the sub-task's result, or the exception the
    wait ends with. *)
Definition result_get (h : AsyncResult) (timeout : Z) : task (result bool) :=
  Vis (E_result_get h timeout) (fun r => Done r).

(** Sequencing inside a [try] block: an exception skips the rest. *)
Definition xbind {A B} (t : task (result A)) (k : A -> task (result B))
  : task (result B) :=
  tbind t (fun r => match r with
                    | Return a => k a
                    | Raise e => Done (Raise e)
                    end).

Declare Scope task_scope.
Delimit Scope task_scope with task.
Notation "x <~ t ;; k" := (xbind t (fun x => k))
  (at level 61, t at next level, right associativity) : task_scope.

(** [file_status.status] on what [get_file_status] returned; on [None] the
    attribute access raises. *)
Definition status_of (file_status : option FileProcessingStatus)
  : task (result FileProcessingStatus) :=
  match file_status with
  | Some row => Done (Return row)
  | None => Done (Raise (mk_exn C_AttributeError
               "'NoneType' object has no attribute 'status'" EmptyString))
  end.

(** [r = sub_task.delay(args); r.get(timeout=600)] *)
Definition delay_and_get (c : task_call) : task (result bool) :=
  (h <~ call (E_delay c) ;; result_get h 600)%task.

(** [if not chunks] *)
Definition no_chunks (chunks : option (list string)) : bool :=
  match chunks with
  | Some (_ :: _) => false
  | _ => true
  end.

Definition chunks_or_empty (chunks : option (list string)) : list string :=
  match chunks with Some l => l | None => [] end.

Module Pipeline.

(** The [try] block of [process_single_file]. *)
Definition process_single_file_try (fid : string) (use_semantic : bool)
  : task (result string) :=
  (first <~ call (E_get_file_status fid) ;;
   match first with
   | None => Done (Raise (Exception ("文件状态不存在: " ++ fid)))
   | Some file_status =>
     _ <~ (if String.eqb (status file_status) "pending"
           then delay_and_get (call_download_file fid (file_url file_status)
                                                  (file_name file_status))
           else Done (Return true)) ;;
     q <~ call (E_get_file_status fid) ;;
     file_status <~ status_of q ;;
     if negb (String.eqb (status file_status) "downloaded")
     then Done (Raise (Exception ("文件下载失败: " ++ fid)))
     else
     _ <~ (if String.eqb (status file_status) "downloaded"
           then delay_and_get (call_convert_document fid (download_path file_status))
           else Done (Return true)) ;;
     q <~ call (E_get_file_status fid) ;;
     file_status <~ status_of q ;;
     if negb (String.eqb (status file_status) "converted")
     then Done (Raise (Exception ("文档转换失败: " ++ fid)))
     else
     _ <~ (if String.eqb (status file_status) "converted"
           then delay_and_get (call_chunk_document fid (markdown_path file_status)
                                                   use_semantic)
           else Done (Return true)) ;;
     q <~ call (E_get_file_status fid) ;;
     file_status <~ status_of q ;;
     if negb (String.eqb (status file_status) "chunked")
     then Done (Raise (Exception ("文档切片失败: " ++ fid)))
     else
     chunks <~ call (E_get_chunks_from_file fid) ;;
     if no_chunks chunks
     then Done (Raise (Exception ("无法获取切片数据: " ++ fid)))
     else
     _ <~ (if String.eqb (status file_status) "chunked"
           then delay_and_get (call_vectorize_chunks fid (chunks_or_empty chunks))
           else Done (Return true)) ;;
     q <~ call (E_get_file_status fid) ;;
     file_status <~ status_of q ;;
     if negb (String.eqb (status file_status) "vectorized")
     then Done (Raise (Exception ("切片向量化失败: " ++ fid)))
     else
     vectorized_chunks <~ call (E_get_vectorization_info fid) ;;
     _ <~ (if String.eqb (status file_status) "vectorized"
           then delay_and_get (call_save_data fid vectorized_chunks)
           else Done (Return true)) ;;
     q <~ call (E_get_file_status fid) ;;
     file_status <~ status_of q ;;
     if negb (String.eqb (status file_status) "completed")
     then Done (Raise (Exception ("数据保存失败: " ++ fid)))
     else Done (Return (status file_status))
   end)%task.

(** The task [process_single_file] *)
Definition process_single_file (retries : Z) (fid : string) (use_semantic : bool)
  : task (task_exit string) :=
  tbind (process_single_file_try fid use_semantic)
    (fun r =>
       match r with
       | Return s => Done (Succeeded s)
       | Raise e =>
           Vis (E_handle_task_error e fid "process_single_file" retries)
               (fun info => Done (retry_or_fail Tasks.task_max_retries retries info))
       end).

(** The loop of [retry_failed_files] over the rows [get_failed_files]
    returned. *)
Fixpoint retry_loop (max_retry_count : Z) (failed : list FileProcessingStatus)
    (retry_count_acc : Z) : task Z :=
  match failed with
  | [] => Done retry_count_acc
  | file_status :: rest =>
      if retry_count file_status <? max_retry_count
      then
        Vis (E_update_status (file_id file_status) "pending" None [])
          (fun _ =>
             Vis (E_delay (call_process_single_file (file_id file_status)))
               (fun _ => retry_loop max_retry_count rest (retry_count_acc + 1)))
      else retry_loop max_retry_count rest retry_count_acc
  end.

(** The task [retry_failed_files]; its result is the key [retry_count] of the
    dictionary it returns. *)
Definition retry_failed_files (max_retry_count : Z) : task Z :=
  Vis E_get_failed_files (fun failed => retry_loop max_retry_count failed 0).

End Pipeline.

(** *** Running a task tree against the world *)

(** What the world does not hold: the results the result backend delivers to
    a waiting task, and the contents of the chunk files. *)
Record environment : Type := mk_environment {
  backend : AsyncResult -> result bool;
  chunk_contents : string -> list string
}.

(** [Vectorizer.get_vectorization_info] *)
Definition get_vectorization_info (fid : string) : M (option Z) :=
  file_status <- get_file_status fid ;;
  match file_status with
  | Some row => if vector_count row >? 0 then ret (Some (vector_count row))
                else ret None
  | None => ret None
  end.

(** [DocumentChunker.get_chunks_from_file] *)
Definition get_chunks_from_file (env : environment) (fid : string)
  : M (option (list string)) :=
  ex <- os_path_exists (DocumentChunker.chunks_file fid) ;;
  if ex then ret (Some (chunk_contents env fid)) else ret None.

(** [task.delay(args)]: the message joins the queue; the handle is its
    position. *)
Definition delay (c : task_call) : M AsyncResult :=
  fun w => (Return (Z.of_nat (List.length (queue w))), with_queue w (queue w ++ [c])).

Definition handle (handler_max_retries : Z) (env : environment)
    {A} (e : celeryE A) : M A :=
  match e in celeryE T return M T with
  | E_get_file_status fid => get_file_status fid
  | E_get_failed_files => get_failed_files
  | E_update_status fid s msg kwargs => update_status fid s msg kwargs
  | E_handle_task_error e fid name retries =>
      handle_task_error handler_max_retries e fid name retries
  | E_get_chunks_from_file fid => get_chunks_from_file env fid
  | E_get_vectorization_info fid => get_vectorization_info fid
  | E_delay c => delay c
  | E_result_get h timeout => ret (backend env h)
  end.

(** A call made by a running task, as an observer of the broker and the
    store sees it. *)
Inductive observed : Type :=
| Observed {A : Type} (e : celeryE A).

(** Run the tree: every call is answered by the world, in order. *)
Fixpoint run (handler_max_retries : Z) (env : environment) {R} (t : task R)
  : M (R * list observed) :=
  match t with
  | Done r => ret (r, [])
  | Vis e k =>
      a <- handle handler_max_retries env e ;;
      rest <- run handler_max_retries env (k a) ;;
      ret (fst rest, Observed e :: snd rest)
  end.

(** ** The stage order of the specification *)

(** The fixed order of stages, as the specification lists it. *)
Definition stage_order : list string :=
  ["pending"; "downloading"; "downloaded"; "converting"; "converted";
   "chunking"; "chunked"; "vectorizing"; "vectorized"; "saving"; "completed"].

(** [next] is the stage right after [current] in the order. *)
Fixpoint successor_in (order : list string) (current next : string) : bool :=
  match order with
  | a :: ((b :: _) as rest) =>
      (String.eqb a current && String.eqb b next) || successor_in rest current next
  | _ => false
  end.

(** The moves the specification allows an update to make: one step forward,
    sideways into [failed], or the reset of a failed item to [pending]. *)
Definition allowed_move (current next : string) : bool :=
  successor_in stage_order current next
  || String.eqb next "failed"
  || (String.eqb current "failed" && String.eqb next "pending").

(** The stage of an item in a world. *)
Definition stage_of (fid : string) (w : World) : option string :=
  option_map status (find_file fid (files w)).

Definition sample_row (fid st : string) (retries : Z) : FileProcessingStatus :=
  mk_file fid (fid ++ ".pdf") (Some ("http://files/" ++ fid)) st 0 0
          None None 0 0 None retries.

Definition sample_world (rows : list FileProcessingStatus) : World :=
  mk_world rows [] [] 1000 [].

(** ** The retry policy as the specification words it *)

(** The coarse kinds of failure of the specification. *)
Inductive failure_kind : Type :=
| TransientNetwork
| TransientService
| Validation
| Unknown.

(** The kind of an exception: connection and timeout errors are network
    failures, the other [requests] errors (HTTP errors) are service failures,
    [ValueError] is a validation failure. *)
Definition kind_of (e : exn) : failure_kind :=
  if isinstance_any e [C_ConnectionError; C_TimeoutError;
                       C_ReqConnectionError; C_ReqTimeout]
  then TransientNetwork
  else if isinstance e C_RequestException then TransientService
  else if isinstance e C_ValueError then Validation
  else Unknown.

(** The transient markers the specification names. *)
Definition spec_markers : list string :=
  ["timeout"; "connection"; "unavailable"; "gateway"].

(** The decision as the specification states it: never at or past the
    bound; below it, exactly the transient kinds and the messages that
    contain a named marker. *)
Definition spec_should_retry (max_retries : Z) (e : exn) (attempts : Z) : bool :=
  if attempts >=? max_retries then false
  else
    match kind_of e with
    | TransientNetwork | TransientService => true
    | Validation | Unknown =>
        existsb (fun marker => contains marker (lower (exc_msg e))) spec_markers
    end.

(** [k] occurs in [s]: [s] is some text, then [k], then some text. *)
Definition occurs (k s : string) : Prop :=
  exists before after, s = before ++ k ++ after.

(** ** The retry sweep, as an observer describes it *)

(** The rows [get_failed_files] returns. *)
Definition is_failed (r : FileProcessingStatus) : bool :=
  String.eqb (status r) "failed".

(** The rows the sweep re-activates. *)
Definition reactivates (max_retry_count : Z) (r : FileProcessingStatus) : bool :=
  is_failed r && (retry_count r <? max_retry_count).

(** The two calls the sweep makes for a row it re-activates, in order. *)
Definition sweep_calls (r : FileProcessingStatus) : list observed :=
  [Observed (E_update_status (file_id r) "pending" None []);
   Observed (E_delay (call_process_single_file (file_id r)))].

(** The store's invariant: [file_id] is a unique column. *)
Definition unique_ids (l : list FileProcessingStatus) : Prop :=
  NoDup (map file_id l).

Definition quiet_environment : environment :=
  mk_environment (fun _ => Return true) (fun _ => []).

(** ** The cleanup, as an observer describes it *)

(** A path column that [if path:] accepts. *)
Definition recorded_path (path : option string) : list string :=
  match path with
  | Some p => if truthy path then [p] else []
  | None => []
  end.

(** The files whose paths a row records. *)
Definition recorded_paths (r : FileProcessingStatus) : list string :=
  (recorded_path (download_path r) ++ recorded_path (markdown_path r))%list.

(** A work item that was downloaded, converted and chunked, failed while its
    chunks were vectorised (the executor's updates of lines 35 and 75 of
    [vectorizer.py]), and then lay untouched for 25 hours. *)
Definition failed_after_chunking : World :=
  snd ((add_file "f1" "f1.pdf" (Some "http://files/f1") ;;;
        FileOperations.download_file "f1" None None
          (mk_attempt 5 (Return "f1.pdf")) ;;;
        DocumentConverter.convert_to_markdown "downloads/temp/f1_f1.pdf" "f1"
          (mk_attempt 7 (Return true)) ;;;
        DocumentChunker.chunk_markdown "outputs/markdown/f1.md" "f1"
          (mk_attempt 3 (Return ["one"; "two"])) ;;;
        update_status "f1" "vectorizing" None [] ;;;
        update_status "f1" "failed" (Some "向量化失败: 503 Service Unavailable") [] ;;;
        elapse (timedelta_hours 25))
       (mk_world [] [] [] 0 [])).

(** ** Blocking inside a running task *)

(** The calls that talk to the broker or the result backend. *)
Definition is_broker_call {A} (e : celeryE A) : bool :=
  match e with
  | E_delay _ | E_result_get _ _ => true
  | _ => false
  end.

(** The task can reach a point where it is suspended in
    [AsyncResult.get], waiting for the result of another task. *)
Inductive blocks {R : Type} : task R -> Prop :=
| blocks_here (h : AsyncResult) (timeout : Z) (k : result bool -> task R) :
    blocks (Vis (E_result_get h timeout) k)
| blocks_later {A : Type} (e : celeryE A) (k : A -> task R) (a : A) :
    blocks (k a) -> blocks (Vis e k).

(** Whatever the environment answers, every dispatch the task makes is
    followed at once by a wait of 600 seconds for the result of the task
    just dispatched, and the task makes no other call to the broker. *)
Inductive dispatch_then_wait {R : Type} : task R -> Prop :=
| dw_done (r : R) : dispatch_then_wait (Done r)
| dw_delay (c : task_call) (k : AsyncResult -> task R)
           (k' : AsyncResult -> result bool -> task R) :
    (forall h, k h = Vis (E_result_get h 600) (k' h)) ->
    (forall h r, dispatch_then_wait (k' h r)) ->
    dispatch_then_wait (Vis (E_delay c) k)
| dw_other {A : Type} (e : celeryE A) (k : A -> task R) :
    is_broker_call e = false ->
    (forall a, dispatch_then_wait (k a)) ->
    dispatch_then_wait (Vis e k).

(** ** A stage task under repeated failure *)

(** The lowercased message holds one of the keywords of [_should_retry]. *)
Definition has_retry_keyword (message : string) : bool :=
  keyword_loop retryable_keywords (lower message).

(** The item [fid] is stored with this stage, counter and URL. *)
Definition item_at (fid stage : string) (count : Z) (url : option string)
    (w : World) : Prop :=
  exists row,
    find_file fid (files w) = Some row
    /\ status row = stage /\ retry_count row = count /\ file_url row = url.

(** The last entry of the event log is for [fid] and records [count] as the
    [retry_count] of its error dictionary. *)
Definition last_log_records (fid : string) (count : Z) (w : World) : Prop :=
  exists older entry info,
    logs w = (older ++ [entry])%list
    /\ log_file_id entry = fid
    /\ log_extra_data entry = Some info
    /\ ei_retry_count info = count.

(** The download task of [fid], delivered by Celery from [request.retries]
    = 0, meeting the given attempts of the network. *)
Definition deliver_download (fid : string) (url name : option string)
    (attempts : list (attempt string)) : M (option (task_exit string * Z)) :=
  celery_deliver
    (fun retries net => Tasks.download_file MAX_RETRIES retries fid url name net)
    0 attempts.

(** An attempt that ends with a connection error of [requests]. *)
Definition connection_refused : attempt string :=
  mk_attempt 2000000
    (Raise (mk_exn C_ReqConnectionError
              "HTTPConnectionPool(host='files', port=80): Connection refused" EmptyString)).

(** The attempt ends with an exception whose message holds a retry
    keyword. *)
Definition fails_retryably (net : attempt string) : bool :=
  match outcome net with
  | Raise e => has_retry_keyword (exc_msg e)
  | Return _ => false
  end.

(** ** Further observers of the store *)

(** The statuses that [get_statistics] counts in one of its four buckets. *)
Definition counted_statuses : list string :=
  ["completed"; "failed"; "pending";
   "downloading"; "converting"; "chunking"; "vectorizing"; "saving"].

(** The rows that fall in none of the buckets of [get_statistics]. *)
Definition uncounted (l : list FileProcessingStatus) : Z :=
  Z.of_nat (List.length (filter (fun r => negb (status_in counted_statuses r)) l)).

(** ** Further observers of the tasks *)

(** The exit is a request to run the task again. *)
Definition is_retry {A} (exit : task_exit A) : bool :=
  match exit with
  | Retry _ => true
  | _ => false
  end.

(** The exit is the success dictionary. *)
Definition is_success {A} (exit : task_exit A) : bool :=
  match exit with
  | Succeeded _ => true
  | _ => false
  end.

(** A stage task delivered by Celery from [request.retries] = 0: its frame
    is [stage_task], around any executor. *)
Definition deliver_stage {A B} (handler_max_retries : Z) (task_name fid : string)
    (executor : attempt B -> M A) (attempts : list (attempt B))
  : M (option (task_exit A * Z)) :=
  celery_deliver
    (fun retries a =>
       Tasks.stage_task handler_max_retries task_name fid retries (executor a))
    0 attempts.

(** The message of the exception [FileOperations.download_file] raises for a
    failure [e] of the network. *)
Definition download_error_message (e : exn) : string :=
  (if isinstance e C_RequestException
   then "下载文件失败: " else "下载文件时发生未知错误: ") ++ exc_msg e.

(** The path under which a download is saved. *)
Definition download_path_of (fid saved_name : string) : string :=
  DOWNLOAD_DIR ++ "/temp/" ++ fid ++ "_" ++ saved_name.

(** The item [fid] is stored as downloaded at [path], with this counter. *)
Definition downloaded_at (fid path : string) (count : Z) (w : World) : Prop :=
  exists row,
    find_file fid (files w) = Some row
    /\ status row = "downloaded" /\ retry_count row = count
    /\ download_path row = Some path.

(** ** [FileOperations.query_files] *)

(** [URL1], when the environment does not override it. *)
Definition URL1 : string := "http://localhost:8000/api/files".

(** An entry of the listing the file service returns: the keys the code
    reads, each with its alternative spelling. *)
Record file_info : Type := mk_file_info {
  fi_id : option string;
  fi_file_id : option string;
  fi_name : option string;
  fi_file_name : option string;
  fi_url : option string;
  fi_download_url : option string
}.

Module Registration.

(** The body of the loop over the listing: an entry with an identifier and
    a name is added unless the store already has the identifier. *)
Definition register_one (info : file_info) : M unit :=
  let file_id := py_or (fi_id info) (fi_file_id info) in
  let file_name := py_or (fi_name info) (fi_file_name info) in
  let file_url := py_or (fi_url info) (fi_download_url info) in
  match file_id, file_name with
  | Some fid, Some name =>
      if truthy file_id && truthy file_name then
        existing_file <- get_file_status fid ;;
        match existing_file with
        | None => add_file fid name file_url ;;; ret tt
        | Some _ => ret tt
        end
      else ret tt
  | _, _ => ret tt
  end.

(** [for file_info in files: ...] *)
Fixpoint register_files (listing : list file_info) : M unit :=
  match listing with
  | [] => ret tt
  | info :: rest => register_one info ;;; register_files rest
  end.

(** The [try] block of [query_files].  The collaborator's result is the
    parsed listing; the number of files is left out of the log message. *)
Definition query_files_try (service : attempt (list file_info))
  : M (list file_info) :=
  add_log "system" "INFO" ("开始查询文件列表，URL: " ++ URL1) None None ;;;
  elapse (took service) ;;;
  match outcome service with
  | Raise e => raise e
  | Return listing =>
      add_log "system" "INFO" "查询到文件" None None ;;;
      register_files listing ;;;
      ret listing
  end.

(** [FileOperations.query_files], with its two [except] clauses. *)
Definition query_files (service : attempt (list file_info))
  : M (list file_info) :=
  try_except (query_files_try service)
    (fun e =>
       let error_msg :=
         (if isinstance e C_RequestException
          then "查询文件列表失败: " else "查询文件列表时发生未知错误: ") ++ exc_msg e in
       add_log "system" "ERROR" error_msg None None ;;;
       raise (Exception error_msg)).

End Registration.

(** The identifier under which an entry of the listing is registered, when
    it has both an identifier and a name. *)
Definition listed_id (info : file_info) : option string :=
  match py_or (fi_id info) (fi_file_id info),
        py_or (fi_name info) (fi_file_name info) with
  | Some fid, Some _ =>
      if truthy (py_or (fi_id info) (fi_file_id info))
         && truthy (py_or (fi_name info) (fi_file_name info))
      then Some fid else None
  | _, _ => None
  end.

Definition sample_listing : list file_info :=
  [mk_file_info (Some "f1") None (Some "one.pdf") None (Some "http://files/f1") None;
   mk_file_info None (Some "f2") None (Some "two.docx") None None;
   mk_file_info (Some "f1") None (Some "again.pdf") None None None;
   mk_file_info None None (Some "nameless") None None None].

(** ** [FileOperations._get_file_extension] and the saved name *)

(** [s.endswith(suffix)] *)
Fixpoint ends_with (s suffix : string) : bool :=
  String.eqb s suffix ||
  match s with
  | EmptyString => false
  | String _ s' => ends_with s' suffix
  end.

(** [d.get(key, default)] on a dictionary with string keys. *)
Fixpoint dict_get (d : list (string * string)) (key default : string) : string :=
  match d with
  | [] => default
  | (k, v) :: rest => if String.eqb k key then v else dict_get rest key default
  end.

(** The dictionary [content_type_map]. *)
Definition content_type_map : list (string * string) :=
  [("application/pdf", ".pdf");
   ("application/msword", ".doc");
   ("application/vnd.openxmlformats-officedocument.wordprocessingml.document",
    ".docx");
   ("application/vnd.ms-excel", ".xls");
   ("application/vnd.openxmlformats-officedocument.spreadsheetml.sheet", ".xlsx");
   ("application/vnd.ms-powerpoint", ".ppt");
   ("application/vnd.openxmlformats-officedocument.presentationml.presentation",
    ".pptx");
   ("text/plain", ".txt");
   ("text/html", ".html");
   ("text/csv", ".csv");
   ("image/jpeg", ".jpg");
   ("image/png", ".png");
   ("image/gif", ".gif")].

(** [FileOperations._get_file_extension] *)
Definition _get_file_extension (file_name content_type : string) : string :=
  if contains "." file_name then EmptyString
  else dict_get content_type_map (lower content_type) EmptyString.

(** The name under which [download_file] saves the body:
    [if not file_name.endswith(ext): file_name += ext]. *)
Definition saved_file_name (file_name content_type : string) : string :=
  let file_extension := _get_file_extension file_name content_type in
  if negb (ends_with file_name file_extension)
  then file_name ++ file_extension
  else file_name.

(** ** [Vectorizer.vectorize_chunks] *)

(** [range(0, stop, step)], for a positive step: the multiples of [step]
    below [stop]. *)
Definition py_range_step (stop step : nat) : list nat :=
  map (fun k => k * step)%nat (seq 0 ((stop + step - 1) / step)).

(** [l[i:j]], for [0 <= i <= j]. *)
Definition slice {A} (l : list A) (i j : nat) : list A :=
  firstn (j - i) (skipn i l).

(** What the vectorisation service answers: the vectors of the batch, or a
    refusal with the optional [error] key of the response. *)
Inductive vec_response : Type :=
| vec_ok (vectorized_chunks : list string)
| vec_error (error : option string).

Module Vectorizer.

(** [batch_size = 10] *)
Definition batch_size : nat := 10.

(** The batches the loop of [vectorize_chunks] sends, each with its start
    index [i]: [chunks[i:i + batch_size]] for [i] in
    [range(0, len(chunks), batch_size)]. *)
Definition batches (chunks : list string) : list (nat * list string) :=
  map (fun i => (i, slice chunks i (i + batch_size)))
      (py_range_step (List.length chunks) batch_size).

(** [Vectorizer._vectorize_batch]: a refusal is raised inside the [try]
    block and wrapped by its last [except] clause. *)
Definition _vectorize_batch (service : attempt vec_response) : M (list string) :=
  elapse (took service) ;;;
  match outcome service with
  | Raise e =>
      raise (Exception ((if isinstance e C_RequestException
                         then "向量化请求失败: " else "批量向量化失败: ") ++ exc_msg e))
  | Return (vec_ok vectorized_chunks) => ret vectorized_chunks
  | Return (vec_error error) =>
      raise (Exception ("批量向量化失败: "
                        ++ match error with
                           | Some msg => msg
                           | None => "向量化请求失败"
                           end))
  end.

(** The loop over the batches; [embed] is what the service does with a
    batch. *)
Fixpoint vectorize_loop (fid : string) (embed : list string -> attempt vec_response)
    (todo : list (nat * list string)) (vectorized_chunks : list string)
  : M (list string) :=
  match todo with
  | [] => ret vectorized_chunks
  | (_, batch) :: rest =>
      batch_results <- _vectorize_batch (embed batch) ;;
      add_log fid "INFO" "向量化进度" None None ;;;
      vectorize_loop fid embed rest (vectorized_chunks ++ batch_results)
  end.

(** The [try] block of [vectorize_chunks]. *)
Definition vectorize_chunks_try (chunks : list string) (fid : string)
    (embed : list string -> attempt vec_response) : M (list string) :=
  update_status fid "vectorizing" None [] ;;;
  add_log fid "INFO" ("开始向量化切片: " ++ fid) None None ;;;
  vectorized_chunks <- vectorize_loop fid embed (batches chunks) [] ;;
  update_status fid "vectorized" None
    [kw_vector_count (Z.of_nat (List.length vectorized_chunks));
     kw_other "vectorize_time"] ;;;
  add_log fid "INFO" ("向量化完成: " ++ fid) None None ;;;
  ret vectorized_chunks.

(** [Vectorizer.vectorize_chunks] *)
Definition vectorize_chunks (chunks : list string) (fid : string)
    (embed : list string -> attempt vec_response) : M (list string) :=
  try_except (vectorize_chunks_try chunks fid embed)
    (fun e =>
       let error_msg := "向量化失败: " ++ exc_msg e in
       update_status fid "failed" (Some error_msg) [] ;;;
       add_log fid "ERROR" error_msg None None ;;;
       raise (Exception error_msg)).

End Vectorizer.

(** The item [fid] is stored as vectorized with [n] vectors. *)
Definition vectorized_with (fid : string) (n count : Z) (w : World) : Prop :=
  exists row,
    find_file fid (files w) = Some row
    /\ status row = "vectorized" /\ retry_count row = count
    /\ vector_count row = n.

(** ** [ErrorHandler.get_error_summary] *)

(** [d[key] = d.get(key, 0) + 1] on a dictionary of counters. *)
Fixpoint dict_incr (d : list (string * Z)) (key : string) : list (string * Z) :=
  match d with
  | [] => [(key, 1)]
  | (k, n) :: rest =>
      if String.eqb k key then (k, n + 1) :: rest
      else (k, n) :: dict_incr rest key
  end.

(** The dictionary [get_error_summary] returns; an entry of
    [recent_errors] is built from the fields of its log row. *)
Record error_summary : Type := mk_error_summary {
  total_errors : Z;
  error_types : list (string * Z);
  recent_errors : list ProcessingLog
}.

(** The loop that counts the error types: only rows with extra data
    count. *)
Definition count_error_types (error_logs : list ProcessingLog)
  : list (string * Z) :=
  fold_left
    (fun types log =>
       match log_extra_data log with
       | Some extra_data => dict_incr types (ei_error_type extra_data)
       | None => types
       end)
    error_logs [].

(** [error_logs[-10:] if len(error_logs) > 10 else error_logs] *)
Definition last_ten (error_logs : list ProcessingLog) : list ProcessingLog :=
  if (10 <? List.length error_logs)%nat
  then skipn (List.length error_logs - 10) error_logs
  else error_logs.

(** [ErrorHandler.get_error_summary] *)
Definition get_error_summary (fid : option string) : M error_summary :=
  error_logs <-
    (match fid with
     | Some f =>
         if truthy fid then
           file_logs <- get_file_logs f ;;
           ret (filter (fun log => String.eqb (log_level log) "ERROR") file_logs)
         else gets (fun w => filter (fun log => String.eqb (log_level log) "ERROR")
                                     (logs w))
     | None => gets (fun w => filter (fun log => String.eqb (log_level log) "ERROR")
                                      (logs w))
     end) ;;
  ret (mk_error_summary (Z.of_nat (List.length error_logs))
                        (count_error_types error_logs)
                        (last_ten error_logs)).

(** The sum of the counters of a dictionary. *)
Definition dict_total (d : list (string * Z)) : Z :=
  fold_right (fun kv acc => snd kv + acc) 0 d.

(** The ERROR rows of the event log that belong to [fid]. *)
Definition error_logs_of (fid : string) (w : World) : list ProcessingLog :=
  filter (fun log => String.eqb (log_level log) "ERROR")
         (filter (fun log => String.eqb (log_file_id log) fid) (logs w)).

(** ** Observers of the converter *)

(** The item [fid] is stored as converted, with its markdown at [path]. *)
Definition converted_at (fid path : string) (count : Z) (w : World) : Prop :=
  exists row,
    find_file fid (files w) = Some row
    /\ status row = "converted" /\ retry_count row = count
    /\ markdown_path row = Some path.
(** * Properties *)

(** ** Helper lemmas on the store *)

Lemma setattr_file_id (r : FileProcessingStatus) (kw : kwarg) :
  file_id (setattr r kw) = file_id r.
Proof. destruct kw; reflexivity. Qed.

Lemma setattr_status (r : FileProcessingStatus) (kw : kwarg) :
  status (setattr r kw) = status r.
Proof. destruct kw; reflexivity. Qed.

Lemma fold_setattr_file_id (kwargs : list kwarg) (r : FileProcessingStatus) :
  file_id (fold_left setattr kwargs r) = file_id r.
Proof.
  revert r. induction kwargs as [|kw kwargs IH]; intro r; simpl.
  - reflexivity.
  - rewrite IH. apply setattr_file_id.
Qed.

Lemma fold_setattr_status (kwargs : list kwarg) (r : FileProcessingStatus) :
  status (fold_left setattr kwargs r) = status r.
Proof.
  revert r. induction kwargs as [|kw kwargs IH]; intro r; simpl.
  - reflexivity.
  - rewrite IH. apply setattr_status.
Qed.

Lemma fold_setattr_retry_count (kwargs : list kwarg) (r : FileProcessingStatus) :
  (forall v, ~ In (kw_retry_count v) kwargs) ->
  retry_count (fold_left setattr kwargs r) = retry_count r.
Proof.
  revert r. induction kwargs as [|kw kwargs IH]; intros r Hno; simpl.
  - reflexivity.
  - rewrite IH.
    + destruct kw; try reflexivity. exfalso. apply (Hno v). now left.
    + intros v Hin. apply (Hno v). now right.
Qed.

Lemma apply_update_file_id now s msg kwargs r :
  file_id (apply_update now s msg kwargs r) = file_id r.
Proof.
  unfold apply_update. rewrite fold_setattr_file_id.
  destruct (truthy msg); reflexivity.
Qed.

Lemma apply_update_status now s msg kwargs r :
  status (apply_update now s msg kwargs r) = s.
Proof.
  unfold apply_update. rewrite fold_setattr_status.
  destruct (truthy msg); reflexivity.
Qed.

Lemma apply_update_retry_count now s msg kwargs r :
  (forall v, ~ In (kw_retry_count v) kwargs) ->
  retry_count (apply_update now s msg kwargs r) =
  if truthy msg then retry_count r + 1 else retry_count r.
Proof.
  intro Hno. unfold apply_update. rewrite fold_setattr_retry_count by assumption.
  destruct (truthy msg); reflexivity.
Qed.

(** After the in-place update, the same query finds the updated row. *)
Lemma find_update_first_same fid f l :
  (forall r, file_id (f r) = file_id r) ->
  find_file fid (update_first fid f l) = option_map f (find_file fid l).
Proof.
  intro Hf. induction l as [|r l IH]; simpl.
  - reflexivity.
  - destruct (String.eqb (file_id r) fid) eqn:E; simpl.
    + rewrite Hf, E. reflexivity.
    + rewrite E. exact IH.
Qed.

(** Rows with another identifier are not touched. *)
Lemma find_update_first_other fid fid' f l :
  (forall r, file_id (f r) = file_id r) ->
  fid' <> fid ->
  find_file fid' (update_first fid f l) = find_file fid' l.
Proof.
  intros Hf Hne. induction l as [|r l IH]; simpl.
  - reflexivity.
  - destruct (String.eqb (file_id r) fid) eqn:E; simpl.
    + rewrite Hf. apply String.eqb_eq in E. rewrite E.
      destruct (String.eqb fid fid') eqn:E'.
      * apply String.eqb_eq in E'. congruence.
      * reflexivity.
    + destruct (String.eqb (file_id r) fid'); [reflexivity | exact IH].
Qed.

Lemma update_status_found w fid s msg kwargs row :
  find_file fid (files w) = Some row ->
  update_status fid s msg kwargs w =
  (Return true,
   with_files w (update_first fid (apply_update (clock w) s msg kwargs) (files w))).
Proof. intro H. unfold update_status. rewrite H. reflexivity. Qed.

Lemma update_status_missing w fid s msg kwargs :
  find_file fid (files w) = None ->
  update_status fid s msg kwargs w = (Return false, w).
Proof. intro H. unfold update_status. rewrite H. reflexivity. Qed.


(** ** The store's update operation *)

(** C1, as stated, fails: the store applies a status that skips nine stages
    (pending to completed), and one that moves a completed item back to
    downloading; both calls succeed, and neither is a move the
    specification allows. *)
Lemma update_status_skips_and_regresses :
  let w := sample_world [sample_row "f1" "pending" 0;
                         sample_row "f2" "completed" 0] in
  let w1 := snd (update_status "f1" "completed" None [] w) in
  let w2 := snd (update_status "f2" "downloading" None [] w1) in
  fst (update_status "f1" "completed" None [] w) = Return true
  /\ stage_of "f1" w = Some "pending"
  /\ stage_of "f1" w1 = Some "completed"
  /\ allowed_move "pending" "completed" = false
  /\ fst (update_status "f2" "downloading" None [] w1) = Return true
  /\ stage_of "f2" w1 = Some "completed"
  /\ stage_of "f2" w2 = Some "downloading"
  /\ allowed_move "completed" "downloading" = false.
Proof. vm_compute. repeat split; reflexivity. Qed.

(** C1, amended: the store checks no order.  On an existing item
    [update_status] returns true and leaves the item at exactly the requested
    status, whatever its current stage and whatever the other arguments; on
    an unknown identifier it returns false and changes nothing. *)
Theorem update_status_sets_requested_status
    (w : World) (fid new_status : string) (msg : option string)
    (kwargs : list kwarg) :
  match find_file fid (files w) with
  | Some _ =>
      fst (update_status fid new_status msg kwargs w) = Return true
      /\ stage_of fid (snd (update_status fid new_status msg kwargs w))
         = Some new_status
  | None =>
      update_status fid new_status msg kwargs w = (Return false, w)
  end.
Proof.
  destruct (find_file fid (files w)) as [row|] eqn:Hfind.
  - rewrite (update_status_found _ _ _ _ _ _ Hfind). simpl. split; [reflexivity|].
    unfold stage_of. simpl.
    rewrite find_update_first_same by (intro; apply apply_update_file_id).
    rewrite Hfind. simpl. now rewrite apply_update_status.
  - now apply update_status_missing.
Qed.

(** C5, as stated, fails: an item that failed twice and then advances from
    downloading to downloaded keeps its counter at 2. *)
Lemma advance_keeps_retry_count :
  let w := sample_world [sample_row "f1" "downloading" 2] in
  let w' := snd (update_status "f1" "downloaded" None
                   [kw_download_path (Some "downloads/temp/f1_f1.pdf");
                    kw_other "download_time"] w) in
  stage_of "f1" w' = Some "downloaded"
  /\ option_map retry_count (find_file "f1" (files w')) = Some 2.
Proof. vm_compute. split; reflexivity. Qed.

(** C5, amended: an update never resets the counter.  When the keywords do
    not name [retry_count], the update adds one to the counter if it carries
    a non-empty error message, and leaves the counter as it was otherwise,
    also when the stage advances. *)
Theorem update_status_retry_count
    (w : World) (fid new_status : string) (msg : option string)
    (kwargs : list kwarg) (row : FileProcessingStatus)
    (Hfind : find_file fid (files w) = Some row)
    (Hkw : forall v, ~ In (kw_retry_count v) kwargs) :
  option_map retry_count
    (find_file fid (files (snd (update_status fid new_status msg kwargs w))))
  = Some (if truthy msg then retry_count row + 1 else retry_count row).
Proof.
  rewrite (update_status_found _ _ _ _ _ _ Hfind). simpl.
  rewrite find_update_first_same by (intro; apply apply_update_file_id).
  rewrite Hfind. simpl. now rewrite apply_update_retry_count.
Qed.

Lemma update_status_retry_count_witness :
  option_map retry_count
    (find_file "f1" (files (snd (update_status "f1" "failed" (Some "boom")
       [kw_chunk_count 4]
       (sample_world [sample_row "f0" "pending" 0; sample_row "f1" "chunking" 1])))))
  = Some 2.
Proof.
  apply (update_status_retry_count
           (sample_world [sample_row "f0" "pending" 0; sample_row "f1" "chunking" 1])
           "f1" "failed" (Some "boom") [kw_chunk_count 4]
           (sample_row "f1" "chunking" 1)).
  - reflexivity.
  - intros v [H|[]]. discriminate H.
Defined.

(** C6, as stated, fails: a successful [update_status] leaves the event log
    empty. *)
Lemma update_status_appends_no_log :
  let w := sample_world [sample_row "f1" "pending" 0] in
  fst (update_status "f1" "downloading" None [] w) = Return true
  /\ logs w = []
  /\ logs (snd (update_status "f1" "downloading" None [] w)) = [].
Proof. vm_compute. repeat split; reflexivity. Qed.

(** C6, amended: [update_status] never writes the event log; an entry is
    appended only by a separate call of [add_log], which appends exactly one
    entry, for the work item it is given. *)
Theorem update_status_log_unchanged_add_log_appends_one
    (w : World) (fid new_status : string) (msg : option string)
    (kwargs : list kwarg) (level message : string) (task_id : option string)
    (extra : option error_info) :
  logs (snd (update_status fid new_status msg kwargs w)) = logs w
  /\ exists entry,
       logs (snd (add_log fid level message task_id extra w))
       = (logs w ++ [entry])%list
       /\ log_file_id entry = fid
       /\ files (snd (add_log fid level message task_id extra w)) = files w.
Proof.
  split.
  - unfold update_status. destruct (find_file fid (files w)); reflexivity.
  - eexists. simpl. repeat split; reflexivity.
Qed.

(** ** The retry delay *)

(** C2: for every count [n >= 0] the delay is [min (60 * 2^n) 600]; it is
    60, 120, 240 and 480 for 0, 1, 2 and 3, and 600 from 4 on. *)
Theorem calculate_retry_delay_backoff (n : Z) (Hn : 0 <= n) :
  _calculate_retry_delay n = Z.min (60 * 2 ^ n) 600
  /\ _calculate_retry_delay 0 = 60
  /\ _calculate_retry_delay 1 = 120
  /\ _calculate_retry_delay 2 = 240
  /\ _calculate_retry_delay 3 = 480
  /\ (4 <= n -> _calculate_retry_delay n = 600).
Proof.
  repeat split; try reflexivity.
  intro H4. unfold _calculate_retry_delay.
  assert (2 ^ 4 <= 2 ^ n) by (apply Z.pow_le_mono_r; lia).
  change (2 ^ 4) with 16 in H. lia.
Qed.

Lemma calculate_retry_delay_backoff_witness :
  _calculate_retry_delay 7 = Z.min (60 * 2 ^ 7) 600
  /\ _calculate_retry_delay 0 = 60
  /\ _calculate_retry_delay 1 = 120
  /\ _calculate_retry_delay 2 = 240
  /\ _calculate_retry_delay 3 = 480
  /\ (4 <= 7 -> _calculate_retry_delay 7 = 600).
Proof. apply (calculate_retry_delay_backoff 7). lia. Defined.

(** ** The statistics query *)

(** C10: the statistics query never raises [ZeroDivisionError].  In every
    world it returns; with no work item the success rate is exactly 0, and
    otherwise it is [completed_files / total_files * 100]. *)
Theorem get_statistics_never_divides_by_zero (w : World) :
  exists st,
    get_statistics w = (Return st, w)
    /\ total_files st = Z.of_nat (List.length (files w))
    /\ completed_files st = count_status "completed" (files w)
    /\ (total_files st = 0 -> success_rate st = inject_Z 0)
    /\ (total_files st <> 0 ->
        success_rate st
        = (inject_Z (completed_files st) / inject_Z (total_files st)
           * inject_Z 100)%Q).
Proof.
  unfold get_statistics, bind, gets.
  destruct (Z.of_nat (List.length (files w)) >? 0) eqn:Hpos.
  - unfold py_truediv.
    destruct (Z.of_nat (List.length (files w)) =? 0) eqn:Hz.
    + apply Z.eqb_eq in Hz. rewrite Hz in Hpos. discriminate.
    + eexists. split; [reflexivity|]. simpl.
      repeat split; try reflexivity. intro H. apply Z.eqb_neq in Hz. contradiction.
  - eexists. split; [reflexivity|]. simpl.
    repeat split; try reflexivity.
    intro Hne. exfalso. apply Hne.
    rewrite Z.gtb_ltb in Hpos. apply Z.ltb_ge in Hpos. lia.
Qed.

(** ** The retry decision *)

Lemma prefix_iff (k s : string) :
  String.prefix k s = true <-> exists rest, s = k ++ rest.
Proof.
  revert k. induction s as [|b s IH]; intro k.
  - destruct k as [|a k]; simpl.
    + split; [intros _; now exists EmptyString | reflexivity].
    + split; [discriminate | intros [rest H]; discriminate H].
  - destruct k as [|a k]; simpl.
    + split; [intros _; now exists (String b s) | reflexivity].
    + destruct (ascii_dec a b) as [->|Hne].
      * rewrite IH. split; intros [rest H]; exists rest.
        -- now rewrite H.
        -- now inversion H.
      * split; [discriminate|]. intros [rest H]. inversion H. congruence.
Qed.

(** The substring test decides [occurs]. *)
Lemma contains_iff (k s : string) : contains k s = true <-> occurs k s.
Proof.
  induction s as [|c s IH].
  - cbn [contains]. rewrite orb_false_r, prefix_iff. split.
    + intros [rest H]. now exists EmptyString, rest.
    + intros [before [after H]]. destruct before; [|discriminate H].
      now exists after.
  - cbn [contains]. rewrite orb_true_iff, prefix_iff, IH. split.
    + intros [[rest H] | [before [after H]]].
      * now exists EmptyString, rest.
      * exists (String c before), after. simpl. now rewrite H.
    + intros [before [after H]]. destruct before as [|c' before].
      * left. now exists after.
      * right. simpl in H. inversion H. now exists before, after.
Qed.

Lemma keyword_loop_iff (keywords : list string) (message : string) :
  keyword_loop keywords message = true
  <-> exists keyword, In keyword keywords /\ occurs keyword message.
Proof.
  induction keywords as [|k keywords IH]; simpl.
  - split; [discriminate | intros [? [[] _]]].
  - destruct (contains k message) eqn:Hc.
    + split; [|reflexivity]. intros _. exists k. split; [now left|].
      now apply contains_iff.
    + rewrite IH. split.
      * intros [k' [Hin Hocc]]. exists k'. split; [now right | exact Hocc].
      * intros [k' [[<-|Hin] Hocc]].
        -- apply contains_iff in Hocc. congruence.
        -- now exists k'.
Qed.

(** C3, as stated, fails in both directions.  A failure of unknown kind
    whose message holds [temporary], which is no marker of the
    specification, is retried; and one whose message holds the markers
    [unavailable] and [gateway], but none of the code's keywords, is not. *)
Lemma should_retry_differs_from_spec_markers :
  kind_of (Exception "temporary failure") = Unknown
  /\ _should_retry MAX_RETRIES (Exception "temporary failure") 0 = true
  /\ spec_should_retry MAX_RETRIES (Exception "temporary failure") 0 = false
  /\ kind_of (Exception "gateway unavailable") = Unknown
  /\ _should_retry MAX_RETRIES (Exception "gateway unavailable") 0 = false
  /\ spec_should_retry MAX_RETRIES (Exception "gateway unavailable") 0 = true.
Proof. vm_compute. repeat split; reflexivity. Qed.

(** C3, amended: the decision is false whenever the count has reached the
    bound; below the bound it is true exactly when the exception is an
    instance of one of the retryable classes ([ConnectionError],
    [TimeoutError], [requests]' [RequestException] and its subclasses) or
    its lowercased message contains one of the keywords timeout, connection,
    network, temporary, service unavailable, internal server error, bad
    gateway, gateway timeout; it is false for every other failure. *)
Theorem should_retry_iff (max_retries : Z) (error : exn) (retry_count : Z) :
  _should_retry max_retries error retry_count = true
  <-> retry_count < max_retries
      /\ ((exists c, In c retryable_errors /\ isinstance error c = true)
          \/ (exists keyword, In keyword retryable_keywords
                              /\ occurs keyword (lower (exc_msg error)))).
Proof.
  unfold _should_retry.
  destruct (retry_count >=? max_retries) eqn:Hge.
  - split; [discriminate|]. intros [Hlt _]. apply Z.geb_le in Hge. lia.
  - assert (Hlt : retry_count < max_retries).
    { rewrite Z.geb_leb in Hge. apply Z.leb_gt in Hge. exact Hge. }
    destruct (isinstance_any error retryable_errors) eqn:Hcls.
    + split; [|reflexivity]. intros _. split; [exact Hlt|]. left.
      unfold isinstance_any in Hcls. apply existsb_exists in Hcls.
      destruct Hcls as [c [Hin Hc]]. now exists c.
    + rewrite keyword_loop_iff. split.
      * intro H. split; [exact Hlt | now right].
      * intros [_ [[c [Hin Hc]] | H]]; [|exact H].
        assert (isinstance_any error retryable_errors = true).
        { unfold isinstance_any. apply existsb_exists. now exists c. }
        congruence.
Qed.

(** ** The retry sweep *)

Lemma run_vis hmax env {R A} (e : celeryE A) (k : A -> task R) (w : World) :
  run hmax env (Vis e k) w =
  match handle hmax env e w with
  | (Return a, w') =>
      match run hmax env (k a) w' with
      | (Return rest, w'') => (Return (fst rest, Observed e :: snd rest), w'')
      | (Raise x, w'') => (Raise x, w'')
      end
  | (Raise x, w') => (Raise x, w')
  end.
Proof.
  simpl. unfold bind. destruct (handle hmax env e w) as [[a|x] w']; [|reflexivity].
  destruct (run hmax env (k a) w') as [[rest|x] w'']; reflexivity.
Qed.

Lemma find_file_app_skip fid (done todo : list FileProcessingStatus) :
  ~ In fid (map file_id done) ->
  find_file fid (done ++ todo) = find_file fid todo.
Proof.
  induction done as [|r done IH]; simpl; intro Hnot.
  - reflexivity.
  - destruct (String.eqb (file_id r) fid) eqn:E.
    + apply String.eqb_eq in E. exfalso. apply Hnot. now left.
    + apply IH. intro H. apply Hnot. now right.
Qed.

Lemma update_first_app_skip fid f (done todo : list FileProcessingStatus) :
  ~ In fid (map file_id done) ->
  update_first fid f (done ++ todo) = (done ++ update_first fid f todo)%list.
Proof.
  induction done as [|r done IH]; simpl; intro Hnot.
  - reflexivity.
  - destruct (String.eqb (file_id r) fid) eqn:E.
    + apply String.eqb_eq in E. exfalso. apply Hnot. now left.
    + f_equal. apply IH. intro H. apply Hnot. now right.
Qed.

Lemma unique_ids_head_fresh (done : list FileProcessingStatus) r todo :
  unique_ids (done ++ r :: todo) -> ~ In (file_id r) (map file_id done).
Proof.
  unfold unique_ids. rewrite map_app. simpl. intros H Hin.
  apply NoDup_remove_2 in H. apply H. apply in_or_app. now left.
Qed.

Lemma unique_ids_shift (done : list FileProcessingStatus) r r' todo :
  file_id r' = file_id r ->
  unique_ids (done ++ r :: todo) -> unique_ids ((done ++ [r']) ++ todo).
Proof.
  unfold unique_ids. intros Hid H. rewrite <- app_assoc. simpl.
  rewrite map_app in *. simpl in *. now rewrite Hid.
Qed.

(** The loop of the sweep, started on the rows not yet visited. *)
Lemma run_retry_loop hmax env (max_retry_count : Z) :
  forall (todo done : list FileProcessingStatus) (acc : Z) (w : World),
    files w = (done ++ todo)%list ->
    unique_ids (done ++ todo) ->
    run hmax env (Pipeline.retry_loop max_retry_count (filter is_failed todo) acc) w
    = (Return
         (acc + Z.of_nat (List.length (filter (reactivates max_retry_count) todo)),
          flat_map sweep_calls (filter (reactivates max_retry_count) todo)),
       mk_world
         (done ++ map (fun r => if reactivates max_retry_count r
                                then set_status r "pending" (clock w) else r) todo)
         (logs w) (disk w) (clock w)
         (queue w ++ map (fun r => call_process_single_file (file_id r))
                         (filter (reactivates max_retry_count) todo))).
Proof.
  induction todo as [|r todo IH]; intros done acc w Hfiles Huniq.
  - simpl. unfold ret. destruct w as [fl lg dk ck qu]. simpl in *.
    rewrite Hfiles, Z.add_0_r, !app_nil_r. reflexivity.
  - cbn [filter map].
    assert (Hskip : reactivates max_retry_count r = false ->
                    Pipeline.retry_loop max_retry_count
                      (if is_failed r then r :: filter is_failed todo
                       else filter is_failed todo) acc
                    = Pipeline.retry_loop max_retry_count (filter is_failed todo) acc).
    { unfold reactivates. intro Hre. destruct (is_failed r); [|reflexivity].
      cbn [Pipeline.retry_loop]. simpl in Hre. now rewrite Hre. }
    destruct (reactivates max_retry_count r) eqn:Hre.
    + unfold reactivates in Hre. apply andb_true_iff in Hre.
      destruct Hre as [Hfailed Hlt]. rewrite Hfailed.
      cbn [Pipeline.retry_loop]. rewrite Hlt.
      pose proof (unique_ids_head_fresh _ _ _ Huniq) as Hfresh.
      rewrite run_vis. cbn [handle]. unfold update_status.
      rewrite Hfiles, (find_file_app_skip _ _ _ Hfresh). cbn [find_file].
      rewrite String.eqb_refl.
      rewrite (update_first_app_skip _ _ _ _ Hfresh). cbn [update_first].
      rewrite String.eqb_refl.
      rewrite run_vis. cbn [handle]. unfold delay.
      set (r' := apply_update (clock w) "pending" None [] r).
      rewrite (IH (done ++ [r'])%list (acc + 1)).
      * destruct w as [fl lg dk ck qu]. cbn [fst snd with_files with_queue
          files logs disk clock queue List.length flat_map sweep_calls map app].
        rewrite <- !app_assoc. cbn [app]. rewrite Nat2Z.inj_succ.
        subst r'. cbn [clock]. unfold apply_update. cbn [truthy fold_left].
        do 3 f_equal. lia.
      * destruct w as [fl lg dk ck qu]. cbn. now rewrite <- app_assoc.
      * apply (unique_ids_shift _ r); [reflexivity | exact Huniq].
    + rewrite (Hskip eq_refl). rewrite (IH (done ++ [r])%list acc).
      * rewrite <- app_assoc. reflexivity.
      * rewrite <- app_assoc. exact Hfiles.
      * apply (unique_ids_shift _ r); [reflexivity | exact Huniq].
Qed.

(** C7, as stated, fails: the sweep with bound 3 resets a failed item whose
    counter is 1 to pending, dispatches it, and leaves the counter at 1. *)
Lemma retry_sweep_keeps_retry_count :
  let w := sample_world [sample_row "f1" "failed" 1;
                         sample_row "f2" "failed" 3;
                         sample_row "f3" "completed" 0] in
  let w' := snd (run MAX_RETRIES quiet_environment
                     (Pipeline.retry_failed_files 3) w) in
  stage_of "f1" w' = Some "pending"
  /\ option_map retry_count (find_file "f1" (files w')) = Some 1
  /\ queue w' = [call_process_single_file "f1"].
Proof. vm_compute. repeat split; reflexivity. Qed.

(** C7, amended: in a store with unique identifiers, the sweep with bound
    [max_retry_count] re-activates exactly the failed items whose counter is
    strictly below the bound.  For each of them, in the order of the table,
    it first sets the stage to pending (the counter keeps its value) and
    then dispatches [process_single_file]; every other item, the event log
    and the disk are left as they were, and the task reports how many items
    it re-activated. *)
Theorem retry_failed_files_sweep
    (hmax : Z) (env : environment) (max_retry_count : Z) (w : World)
    (Huniq : unique_ids (files w)) :
  let chosen := filter (reactivates max_retry_count) (files w) in
  run hmax env (Pipeline.retry_failed_files max_retry_count) w
  = (Return (Z.of_nat (List.length chosen),
             Observed E_get_failed_files :: flat_map sweep_calls chosen),
     mk_world
       (map (fun r => if reactivates max_retry_count r
                      then set_status r "pending" (clock w) else r) (files w))
       (logs w) (disk w) (clock w)
       (queue w ++ map (fun r => call_process_single_file (file_id r)) chosen))
  /\ (forall r, status (set_status r "pending" (clock w)) = "pending"
                /\ retry_count (set_status r "pending" (clock w)) = retry_count r).
Proof.
  intro chosen. split; [|intro r; split; reflexivity].
  unfold Pipeline.retry_failed_files. rewrite run_vis.
  cbn [handle]. unfold get_failed_files, get_files_by_status, gets.
  change (filter (fun r => String.eqb (status r) "failed") (files w))
    with (filter is_failed (files w)).
  rewrite (run_retry_loop hmax env max_retry_count (files w) [] 0 w eq_refl Huniq).
  reflexivity.
Qed.

Lemma retry_failed_files_sweep_witness :
  let w := sample_world [sample_row "a" "failed" 0; sample_row "b" "failed" 5;
                         sample_row "c" "chunked" 0; sample_row "d" "failed" 2] in
  stage_of "a" (snd (run MAX_RETRIES quiet_environment
                         (Pipeline.retry_failed_files 3) w)) = Some "pending"
  /\ stage_of "b" (snd (run MAX_RETRIES quiet_environment
                         (Pipeline.retry_failed_files 3) w)) = Some "failed"
  /\ queue (snd (run MAX_RETRIES quiet_environment
                     (Pipeline.retry_failed_files 3) w))
     = [call_process_single_file "a"; call_process_single_file "d"].
Proof.
  intro w.
  assert (Huniq : unique_ids (files w)).
  { unfold unique_ids. simpl.
    repeat (constructor; [simpl; intuition discriminate|]). constructor. }
  destruct (retry_failed_files_sweep MAX_RETRIES quiet_environment 3 w Huniq)
    as [Hrun _].
  rewrite Hrun. repeat split; reflexivity.
Defined.

(** ** The cleanup *)

Lemma filter_filter_and {A} (f g : A -> bool) (l : list A) :
  filter f (filter g l) = filter (fun x => g x && f x) l.
Proof.
  induction l as [|a l IH]; simpl.
  - reflexivity.
  - destruct (g a); simpl; [destruct (f a)|]; now rewrite IH.
Qed.

Lemma filter_all {A} (f : A -> bool) (l : list A) :
  (forall x, In x l -> f x = true) -> filter f l = l.
Proof.
  induction l as [|a l IH]; simpl; intro H.
  - reflexivity.
  - rewrite (H a) by now left. f_equal. apply IH. intros x Hx. apply H. now right.
Qed.

Lemma remove_if_exists_effect (path : option string) (w : World) :
  remove_if_exists path w
  = (Return tt,
     with_disk w (filter (fun q => negb (existsb (String.eqb q) (recorded_path path)))
                         (disk w))).
Proof.
  assert (Hsame : forall d : list string, filter (fun _ => negb false) d = d).
  { intro d. apply filter_all. reflexivity. }
  unfold remove_if_exists, recorded_path.
  destruct path as [p|]; [destruct (truthy (Some p)) eqn:Ht|].
  - unfold bind, os_path_exists, gets.
    destruct (existsb (String.eqb p) (disk w)) eqn:Hex.
    + unfold os_remove, modify. do 2 f_equal. apply filter_ext. intro q.
      simpl. now rewrite orb_false_r, String.eqb_sym.
    + unfold ret. do 2 f_equal. destruct w as [fl lg dk ck qu]. simpl in *.
      unfold with_disk. simpl. f_equal. symmetry. apply filter_all.
      intros q Hq. rewrite orb_false_r.
      destruct (String.eqb q p) eqn:E; [|reflexivity].
      apply String.eqb_eq in E. subst q.
      assert (existsb (String.eqb p) dk = true).
      { apply existsb_exists. exists p. split; [exact Hq | apply String.eqb_refl]. }
      congruence.
  - unfold ret. simpl. rewrite Hsame. now destruct w.
  - unfold ret. simpl. rewrite Hsame. now destruct w.
Qed.

(** The loop removes the recorded files of the rows it is given, and the
    rows with their identifiers; nothing else changes. *)
Lemma cleanup_loop_effect :
  forall (failed : list FileProcessingStatus) (acc : Z) (w : World),
    cleanup_loop failed acc w
    = (Return (acc + Z.of_nat (List.length failed)),
       mk_world
         (filter (fun x => negb (existsb (fun r => String.eqb (file_id x) (file_id r))
                                         failed)) (files w))
         (logs w)
         (filter (fun q => negb (existsb (String.eqb q)
                                         (flat_map recorded_paths failed))) (disk w))
         (clock w) (queue w)).
Proof.
  induction failed as [|r failed IH]; intros acc w.
  - simpl. unfold ret. rewrite Z.add_0_r.
    rewrite !filter_all by reflexivity. now destruct w.
  - cbn [cleanup_loop]. unfold bind at 1.
    rewrite remove_if_exists_effect. unfold bind at 1.
    rewrite remove_if_exists_effect. unfold bind at 1.
    unfold session_delete, modify. rewrite IH.
    destruct w as [fl lg dk ck qu].
    cbn [files logs disk clock queue with_disk with_files List.length flat_map].
    rewrite !filter_filter_and. rewrite Nat2Z.inj_succ.
    f_equal; [f_equal; lia|]. f_equal.
    + apply filter_ext. intro x. cbn [existsb]. now rewrite negb_orb.
    + apply filter_ext. intro q. unfold recorded_paths.
      rewrite !existsb_app, !negb_orb. now rewrite andb_assoc.
Qed.

Lemma unique_ids_inj (l : list FileProcessingStatus) (a b : FileProcessingStatus) :
  unique_ids l -> In a l -> In b l -> file_id a = file_id b -> a = b.
Proof.
  unfold unique_ids. induction l as [|r l IH]; simpl; intros Hnd Ha Hb Heq.
  - contradiction.
  - inversion Hnd as [|? ? Hnotin Hnd']; subst.
    destruct Ha as [<-|Ha], Hb as [<-|Hb].
    + reflexivity.
    + exfalso. apply Hnotin. rewrite Heq. now apply in_map.
    + exfalso. apply Hnotin. rewrite <- Heq. now apply in_map.
    + now apply IH.
Qed.

(** What the cleanup does, in a store with unique identifiers: it purges
    exactly the rows that are failed and were last updated before the
    cutoff, with the files at their recorded download and markdown paths. *)
Lemma cleanup_failed_files_effect (older_than_hours : Z) (w : World) :
  unique_ids (files w) ->
  let cutoff := clock w - timedelta_hours older_than_hours in
  let purged := filter (cleanup_selects cutoff) (files w) in
  cleanup_failed_files older_than_hours w
  = (Return (Z.of_nat (List.length purged)),
     mk_world (filter (fun r => negb (cleanup_selects cutoff r)) (files w))
              (logs w)
              (filter (fun q => negb (existsb (String.eqb q)
                                              (flat_map recorded_paths purged)))
                      (disk w))
              (clock w) (queue w)).
Proof.
  intros Huniq cutoff purged.
  unfold cleanup_failed_files, bind, gets. rewrite cleanup_loop_effect.
  fold cutoff. fold purged. simpl. do 2 f_equal.
  apply filter_ext_in. intros x Hx. f_equal.
  destruct (cleanup_selects cutoff x) eqn:Hsel.
  - apply existsb_exists. exists x. split; [|apply String.eqb_refl].
    apply filter_In. now split.
  - destruct (existsb _ purged) eqn:Hex; [|reflexivity].
    apply existsb_exists in Hex. destruct Hex as [r [Hr Heq]].
    apply filter_In in Hr. destruct Hr as [Hr Hselr].
    apply String.eqb_eq in Heq.
    rewrite (unique_ids_inj _ _ _ Huniq Hx Hr Heq) in Hsel. congruence.
Qed.

(** C8, at the failing input: the cleanup removes the record of the failed
    item and its downloaded and markdown files, and leaves on disk the chunk
    file that [chunk_markdown] wrote; the claim has every stage artifact of
    a purged item removed. *)
Theorem cleanup_leaves_chunk_output :
  stage_of "f1" failed_after_chunking = Some "failed"
  /\ disk failed_after_chunking
     = ["downloads/temp/f1_f1.pdf"; "outputs/markdown/f1.md";
        DocumentChunker.chunks_file "f1"]
  /\ fst (cleanup_failed_files 24 failed_after_chunking) = Return 1
  /\ files (snd (cleanup_failed_files 24 failed_after_chunking)) = []
  /\ disk (snd (cleanup_failed_files 24 failed_after_chunking))
     = [DocumentChunker.chunks_file "f1"].
Proof. vm_compute. repeat split; reflexivity. Qed.

(** ** Stage chaining in [process_single_file] *)

(** C9, as stated, fails: for a pending item the task dispatches the
    download task and is then suspended waiting for its result. *)
Lemma process_single_file_blocks :
  blocks (Pipeline.process_single_file 0 "f1" false).
Proof.
  unfold Pipeline.process_single_file, Pipeline.process_single_file_try.
  cbn.
  apply blocks_later with (a := Some (sample_row "f1" "pending" 0)). cbn.
  apply blocks_later with (a := 0). cbn.
  apply blocks_here.
Qed.

Ltac answer_case :=
  match goal with
  | |- context [match ?x with _ => _ end] =>
      lazymatch x with
      | context [match _ with _ => _ end] => fail
      | _ => destruct x eqn:?
      end
  end.

Ltac chain_step :=
  cbn;
  first
    [ apply dw_done
    | eapply dw_delay; [intro; reflexivity | intros; cbn]
    | apply dw_other; [reflexivity | intros; cbn]
    | answer_case ].

(** C9, amended: [process_single_file] chains the stages by waiting.
    Whatever the store and the backend answer, every sub-task it dispatches
    is awaited at once, inside the running task, with [get(timeout=600)],
    and only after that wait does the task read the store again. *)
Theorem process_single_file_waits_for_each_stage
    (retries : Z) (fid : string) (use_semantic : bool) :
  dispatch_then_wait (Pipeline.process_single_file retries fid use_semantic).
Proof.
  unfold Pipeline.process_single_file, Pipeline.process_single_file_try,
    delay_and_get, result_get, call, xbind, status_of.
  repeat chain_step.
Qed.

(** ** The download task under four failures *)

Lemma lower_app (a b : string) : lower (a ++ b) = lower a ++ lower b.
Proof. induction a as [|c a IH]; simpl; [reflexivity | now rewrite IH]. Qed.

Lemma string_app_assoc (a b c : string) : (a ++ b) ++ c = a ++ (b ++ c).
Proof. induction a as [|x a IH]; simpl; [reflexivity | now rewrite IH]. Qed.

Lemma occurs_app_l (k before s : string) : occurs k s -> occurs k (before ++ s).
Proof.
  intros [b [a H]]. exists (before ++ b), a. rewrite H.
  now rewrite string_app_assoc.
Qed.

(** Wrapping a message behind a prefix keeps its keywords. *)
Lemma has_retry_keyword_prefixed (before message : string) :
  has_retry_keyword message = true ->
  has_retry_keyword (before ++ message) = true.
Proof.
  unfold has_retry_keyword. rewrite !keyword_loop_iff.
  intros [k [Hin Hocc]]. exists k. split; [exact Hin|].
  rewrite lower_app. now apply occurs_app_l.
Qed.

Lemma update_status_item fid stage count url w new_status msg :
  item_at fid stage count url w ->
  exists w',
    update_status fid new_status msg [] w = (Return true, w')
    /\ item_at fid new_status (if truthy msg then count + 1 else count) url w'
    /\ logs w' = logs w /\ clock w' = clock w.
Proof.
  intros [row [Hfind [Hst [Hrc Hurl]]]].
  eexists. split; [apply (update_status_found _ _ _ _ _ _ Hfind)|].
  split; [|split; reflexivity].
  exists (apply_update (clock w) new_status msg [] row). simpl.
  rewrite find_update_first_same by (intro; apply apply_update_file_id).
  rewrite Hfind. split; [reflexivity|].
  unfold apply_update. simpl.
  destruct (truthy msg); simpl; repeat split; congruence.
Qed.

Lemma add_log_item fid stage count url w lf level message tid extra :
  item_at fid stage count url w ->
  exists w',
    add_log lf level message tid extra w = (Return tt, w')
    /\ item_at fid stage count url w'
    /\ logs w' = (logs w ++ [mk_log lf tid level message (clock w) extra])%list
    /\ clock w' = clock w.
Proof.
  intro H. eexists. split; [reflexivity|]. split; [exact H|]. split; reflexivity.
Qed.

Lemma elapse_item fid stage count url w dt :
  item_at fid stage count url w ->
  exists w',
    elapse dt w = (Return tt, w')
    /\ item_at fid stage count url w' /\ logs w' = logs w.
Proof.
  intro H. eexists. split; [reflexivity|]. split; [exact H | reflexivity].
Qed.

Lemma get_file_status_item fid stage count url w :
  item_at fid stage count url w ->
  exists row,
    get_file_status fid w = (Return (Some row), w) /\ file_url row = url.
Proof.
  intros [row [Hfind [_ [_ Hurl]]]]. exists row.
  unfold get_file_status, gets. now rewrite Hfind.
Qed.

(** A failed download: the executor records the failure, counting it once,
    and raises a plain [Exception] that wraps the message. *)
Lemma download_service_fails fid stage count u w url name net e :
  item_at fid stage count u w ->
  truthy (py_or url u) = true ->
  outcome net = Raise e ->
  exists w' before,
    FileOperations.download_file fid url name net w
    = (Raise (Exception (before ++ exc_msg e)), w')
    /\ truthy (Some (before ++ exc_msg e)) = true
    /\ item_at fid "failed" (count + 1) u w'.
Proof.
  intros Hitem Hurl Hout.
  unfold FileOperations.download_file, FileOperations.download_file_try, try_except.
  destruct (update_status_item _ _ _ _ _ "downloading" None Hitem)
    as [w1 [E1 [H1 _]]].
  unfold bind at 1. rewrite E1. cbn [truthy] in H1.
  destruct (add_log_item _ _ _ _ _ fid "INFO" ("开始下载文件: " ++ fid) None None H1)
    as [w2 [E2 [H2 _]]].
  unfold bind at 1. rewrite E2.
  destruct (get_file_status_item _ _ _ _ _ H2) as [row [E3 Hrow]].
  unfold bind at 1. rewrite E3. rewrite Hrow, Hurl. cbn [negb].
  destruct (elapse_item _ _ _ _ _ (took net) H2) as [w3 [E4 [H3 _]]].
  unfold bind at 1. rewrite E4. rewrite Hout. unfold raise at 1.
  set (before := if isinstance e C_RequestException
                 then "下载文件失败: " else "下载文件时发生未知错误: ").
  assert (Htruthy : truthy (Some (before ++ exc_msg e)) = true).
  { subst before. destruct (isinstance e C_RequestException); reflexivity. }
  destruct (update_status_item _ _ _ _ _ "failed" (Some (before ++ exc_msg e)) H3)
    as [w4 [E5 [H4 _]]].
  rewrite Htruthy in H4.
  unfold bind at 1. rewrite E5.
  destruct (add_log_item _ _ _ _ _ fid "ERROR" (before ++ exc_msg e) None None H4)
    as [w5 [E6 [H5 _]]].
  unfold bind at 1. rewrite E6.
  exists w5, before. split; [reflexivity|]. split; assumption.
Qed.

(** The error handler on a wrapped failure that carries a retry keyword:
    below the bound it asks for a retry and leaves the item alone; at the
    bound it marks the item failed, counting the failure once more. *)
Lemma handle_wrapped_failure fid stage count u w task_name retries message :
  item_at fid stage count u w ->
  has_retry_keyword message = true ->
  truthy (Some message) = true ->
  exists w' info,
    handle_task_error MAX_RETRIES (Exception message) fid task_name retries w
    = (Return info, w')
    /\ ei_retry_count info = retries
    /\ get_should_retry info = (retries <? MAX_RETRIES)
    /\ get_retry_delay info
       = (if retries <? MAX_RETRIES then _calculate_retry_delay retries else 60)
    /\ item_at fid (if retries <? MAX_RETRIES then stage else "failed")
               (if retries <? MAX_RETRIES then count else count + 1) u w'
    /\ last_log_records fid retries w'.
Proof.
  intros Hitem Hkw Htruthy.
  unfold handle_task_error.
  match goal with
  | |- context [add_log fid "ERROR" ?m None ?x] =>
      destruct (add_log_item _ _ _ _ _ fid "ERROR" m None x Hitem)
        as [w1 [E1 [H1 [Hlog1 _]]]]
  end.
  unfold bind at 1. rewrite E1.
  assert (Hdecide : _should_retry MAX_RETRIES (Exception message) retries
                    = (retries <? MAX_RETRIES)).
  { unfold _should_retry. rewrite Z.geb_leb, Z.ltb_antisym.
    destruct (MAX_RETRIES <=? retries); [reflexivity|].
    cbn [negb]. change (isinstance_any (Exception message) retryable_errors)
      with false. cbv iota. exact Hkw. }
  rewrite Hdecide.
  destruct (retries <? MAX_RETRIES) eqn:Hlt.
  - exists w1. eexists. split; [reflexivity|]. cbn.
    repeat split; try reflexivity; [exact H1|].
    eexists _, _, _. split; [exact Hlog1|]. repeat split; reflexivity.
  - destruct (update_status_item _ _ _ _ _ "failed" (Some message) H1)
      as [w2 [E2 [H2 [Hlog2 _]]]].
    rewrite Htruthy in H2.
    unfold bind at 1. cbn [exc_msg Exception]. rewrite E2.
    exists w2. eexists. split; [reflexivity|]. cbn.
    repeat split; try reflexivity; [exact H2|].
    eexists _, _, _. split; [rewrite Hlog2; exact Hlog1|]. repeat split; reflexivity.
Qed.

(** One execution of the download task that meets a failure whose message
    carries a retry keyword. *)
Lemma download_task_fails fid stage count u w url name net e retries :
  item_at fid stage count u w ->
  truthy (py_or url u) = true ->
  outcome net = Raise e ->
  has_retry_keyword (exc_msg e) = true ->
  exists w' info,
    Tasks.download_file MAX_RETRIES retries fid url name net w
    = (Return (if retries <? 3
               then Retry (_calculate_retry_delay retries)
               else Failed info), w')
    /\ ei_retry_count info = retries
    /\ item_at fid "failed" (count + (if retries <? 3 then 1 else 2)) u w'
    /\ last_log_records fid retries w'.
Proof.
  intros Hitem Hurl Hout Hkw.
  destruct (download_service_fails _ _ _ _ _ url name net e Hitem Hurl Hout)
    as [w1 [before [E1 [Htruthy H1]]]].
  destruct (handle_wrapped_failure _ _ _ _ _ "download_file" retries
              (before ++ exc_msg e) H1
              (has_retry_keyword_prefixed _ _ Hkw) Htruthy)
    as [w2 [info [E2 [Hcount [Hshould [Hdelay [H2 Hlast]]]]]]].
  exists w2, info.
  unfold Tasks.download_file, Tasks.stage_task, try_except.
  unfold bind at 1. rewrite E1.
  unfold bind at 1. rewrite E2.
  unfold ret, retry_or_fail. rewrite Hshould, Hdelay.
  change Tasks.task_max_retries with 3. change MAX_RETRIES with 3 in *.
  destruct (retries <? 3) eqn:Hlt; cbn [andb].
  - repeat split; try assumption.
  - repeat split; try assumption.
    now rewrite <- Z.add_assoc in H2.
Qed.

Lemma fails_retryably_inv (net : attempt string) :
  fails_retryably net = true ->
  exists e, outcome net = Raise e /\ has_retry_keyword (exc_msg e) = true.
Proof.
  unfold fails_retryably. destruct (outcome net) as [s|e]; [discriminate|].
  intro H. now exists e.
Qed.




(** * Further properties of the code *)

(** ** The store *)

Lemma find_file_none_fresh fid (l : list FileProcessingStatus) :
  find_file fid l = None -> ~ In fid (map file_id l).
Proof.
  induction l as [|r l IH]; simpl; intro H.
  - tauto.
  - destruct (String.eqb (file_id r) fid) eqn:E; [discriminate|].
    apply String.eqb_neq in E. intros [Heq|Hin]; [contradiction | now apply IH].
Qed.

Lemma find_file_some_id fid (l : list FileProcessingStatus) r :
  find_file fid l = Some r -> file_id r = fid /\ In r l.
Proof.
  induction l as [|x l IH]; simpl; intro H.
  - discriminate.
  - destruct (String.eqb (file_id x) fid) eqn:E.
    + inversion H; subst. apply String.eqb_eq in E. split; [exact E | now left].
    + destruct (IH H) as [Hid Hin]. split; [exact Hid | now right].
Qed.

Lemma find_file_app_new fid fid' (l : list FileProcessingStatus) r :
  file_id r = fid ->
  find_file fid' (l ++ [r])
  = match find_file fid' l with
    | Some x => Some x
    | None => if String.eqb fid fid' then Some r else None
    end.
Proof.
  intro Hid. induction l as [|x l IH]; simpl.
  - now rewrite Hid.
  - destruct (String.eqb (file_id x) fid'); [reflexivity | exact IH].
Qed.

Lemma update_first_ids fid f (l : list FileProcessingStatus) :
  (forall r, file_id (f r) = file_id r) ->
  map file_id (update_first fid f l) = map file_id l.
Proof.
  intro Hf. induction l as [|r l IH]; simpl.
  - reflexivity.
  - destruct (String.eqb (file_id r) fid); simpl; [now rewrite Hf | now rewrite IH].
Qed.

Lemma NoDup_snoc {A} (l : list A) (a : A) :
  NoDup l -> ~ In a l -> NoDup (l ++ [a]).
Proof.
  induction l as [|x l IH]; cbn; intros Hnd Hnot.
  - constructor; [intros []|constructor].
  - inversion Hnd as [|? ? Hx Hl]; subst. constructor.
    + intro Hin. apply in_app_or in Hin. destruct Hin as [Hin|[Heq|[]]].
      * contradiction.
      * apply Hnot. now left.
    + apply IH; [exact Hl|]. intro Hin. apply Hnot. now right.
Qed.

(** [add_file] and [get_file_status]: a new identifier is stored as a
    pending row with zero counters, the lookup returns exactly that row,
    every other item is as before, and identifiers stay unique. *)
Theorem add_file_then_lookup
    (w : World) (fid name : string) (url : option string)
    (Hfresh : find_file fid (files w) = None)
    (Huniq : unique_ids (files w)) :
  let w' := snd (add_file fid name url w) in
  fst (get_file_status fid w')
  = Return (Some (mk_file fid name url "pending" (clock w) (clock w)
                          None None 0 0 None 0))
  /\ unique_ids (files w')
  /\ (forall other, other <> fid ->
        find_file other (files w') = find_file other (files w))
  /\ logs w' = logs w /\ disk w' = disk w.
Proof.
  intro w'. subst w'. unfold add_file, get_file_status, gets. cbn.
  repeat split.
  - rewrite (find_file_app_new fid fid) by reflexivity.
    now rewrite Hfresh, String.eqb_refl.
  - unfold unique_ids in *. rewrite map_app. cbn.
    apply NoDup_snoc; [exact Huniq | now apply find_file_none_fresh].
  - intros other Hne. rewrite (find_file_app_new fid other) by reflexivity.
    destruct (find_file other (files w)); [reflexivity|].
    destruct (String.eqb fid other) eqn:E; [|reflexivity].
    apply String.eqb_eq in E. congruence.
Qed.

Lemma add_file_then_lookup_witness :
  fst (get_file_status "f9"
         (snd (add_file "f9" "f9.pdf" None
                 (sample_world [sample_row "f1" "failed" 1]))))
  = Return (Some (mk_file "f9" "f9.pdf" None "pending" 1000 1000
                          None None 0 0 None 0)).
Proof.
  apply (add_file_then_lookup (sample_world [sample_row "f1" "failed" 1])
                              "f9" "f9.pdf" None).
  - reflexivity.
  - unfold unique_ids. cbn. constructor; [intros []|constructor].
Defined.

(** [update_status] touches one row only: the rows of all other
    identifiers, the list of identifiers (so also their uniqueness and the
    size of the table), the event log, the disk, the clock and the broker
    queue are left as they were, whatever the arguments. *)
Theorem update_status_frame
    (w : World) (fid new_status : string) (msg : option string)
    (kwargs : list kwarg) :
  let w' := snd (update_status fid new_status msg kwargs w) in
  (forall other, other <> fid ->
     find_file other (files w') = find_file other (files w))
  /\ map file_id (files w') = map file_id (files w)
  /\ logs w' = logs w /\ disk w' = disk w
  /\ clock w' = clock w /\ queue w' = queue w.
Proof.
  intro w'. subst w'. unfold update_status.
  destruct (find_file fid (files w)) as [row|]; cbn.
  - repeat split.
    + intros other Hne. apply find_update_first_other; [|exact Hne].
      intro; apply apply_update_file_id.
    + apply update_first_ids. intro; apply apply_update_file_id.
  - repeat split.
Qed.

Lemma filter_length_cons {A} (p : A -> bool) (a : A) (l : list A) :
  Z.of_nat (List.length (filter p (a :: l)))
  = (if p a then 1 else 0) + Z.of_nat (List.length (filter p l)).
Proof. cbn [filter]. destruct (p a); cbn [List.length]; lia. Qed.

(** A status belongs to exactly one of the four buckets, or to none. *)
Lemma status_one_bucket (s : string) :
  (if String.eqb s "completed" then 1 else 0)
  + (if String.eqb s "failed" then 1 else 0)
  + (if String.eqb s "pending" then 1 else 0)
  + (if existsb (String.eqb s)
          ["downloading"; "converting"; "chunking"; "vectorizing"; "saving"]
     then 1 else 0)
  + (if negb (existsb (String.eqb s) counted_statuses) then 1 else 0)
  = 1.
Proof.
  unfold counted_statuses. cbn [existsb].
  destruct (String.eqb s "completed") eqn:E1;
    [apply String.eqb_eq in E1; subst s; reflexivity|].
  destruct (String.eqb s "failed") eqn:E2;
    [apply String.eqb_eq in E2; subst s; reflexivity|].
  destruct (String.eqb s "pending") eqn:E3;
    [apply String.eqb_eq in E3; subst s; reflexivity|].
  destruct (String.eqb s "downloading") eqn:E4;
    [apply String.eqb_eq in E4; subst s; reflexivity|].
  destruct (String.eqb s "converting") eqn:E5;
    [apply String.eqb_eq in E5; subst s; reflexivity|].
  destruct (String.eqb s "chunking") eqn:E6;
    [apply String.eqb_eq in E6; subst s; reflexivity|].
  destruct (String.eqb s "vectorizing") eqn:E7;
    [apply String.eqb_eq in E7; subst s; reflexivity|].
  destruct (String.eqb s "saving") eqn:E8;
    [apply String.eqb_eq in E8; subst s; reflexivity|].
  reflexivity.
Qed.

Lemma buckets_partition (l : list FileProcessingStatus) :
  count_status "completed" l + count_status "failed" l
  + count_status "pending" l
  + Z.of_nat (List.length (filter
      (status_in ["downloading"; "converting"; "chunking"; "vectorizing"; "saving"])
      l))
  + uncounted l
  = Z.of_nat (List.length l).
Proof.
  unfold count_status, uncounted.
  induction l as [|r l IH].
  - reflexivity.
  - rewrite !filter_length_cons. cbn [List.length]. rewrite Nat2Z.inj_succ.
    pose proof (status_one_bucket (status r)) as Hone.
    unfold status_in at 1 3. lia.
Qed.

Lemma percentage_bounds (c t : Z) :
  0 <= c <= t -> 0 < t ->
  (0 <= inject_Z c / inject_Z t * inject_Z 100)%Q
  /\ (inject_Z c / inject_Z t * inject_Z 100 <= 100)%Q.
Proof.
  intros Hc Ht. destruct t as [|p|p]; try lia.
  unfold Qle, Qdiv, Qmult, Qinv, inject_Z. cbn. split; nia.
Qed.

(** [get_statistics]: the four buckets never overlap, and together with
    the rows in a done marker or any other status, which are counted in no
    bucket, they add up to the total; the success rate lies between 0 and
    100. *)
Theorem get_statistics_buckets (w : World) :
  exists st,
    get_statistics w = (Return st, w)
    /\ completed_files st + failed_files st + pending_files st
       + processing_files st + uncounted (files w)
       = total_files st
    /\ (0 <= success_rate st)%Q /\ (success_rate st <= 100)%Q.
Proof.
  unfold get_statistics, bind, gets.
  pose proof (buckets_partition (files w)) as Hsum.
  assert (Hc : 0 <= count_status "completed" (files w)
               <= Z.of_nat (List.length (files w))).
  { unfold count_status. split; [lia|].
    apply Nat2Z.inj_le. apply filter_length_le. }
  destruct (Z.of_nat (List.length (files w)) >? 0) eqn:Hpos.
  - unfold py_truediv.
    destruct (Z.of_nat (List.length (files w)) =? 0) eqn:Hz.
    + apply Z.eqb_eq in Hz. rewrite Hz in Hpos. discriminate.
    + eexists. split; [reflexivity|]. cbn [total_files completed_files
        failed_files pending_files processing_files success_rate].
      split; [exact Hsum|].
      apply percentage_bounds; [exact Hc|]. rewrite Z.gtb_ltb in Hpos.
      now apply Z.ltb_lt in Hpos.
  - eexists. split; [reflexivity|]. cbn [total_files completed_files
      failed_files pending_files processing_files success_rate].
    split; [exact Hsum|]. split; unfold Qle; cbn; lia.
Qed.

(** ** The retry delay and the retry bound *)

(** [_calculate_retry_delay] is monotone in the count and stays between
    the base delay of 60 seconds and the cap of 600 seconds. *)
Theorem calculate_retry_delay_bounds (n m : Z) (Hn : 0 <= n) (Hnm : n <= m) :
  60 <= _calculate_retry_delay n
  /\ _calculate_retry_delay n <= _calculate_retry_delay m
  /\ _calculate_retry_delay m <= 600.
Proof.
  unfold _calculate_retry_delay.
  assert (H1 : 1 <= 2 ^ n) by (apply (Z.pow_le_mono_r 2 0 n); lia).
  assert (H2 : 2 ^ n <= 2 ^ m) by (apply Z.pow_le_mono_r; lia).
  lia.
Qed.

Lemma calculate_retry_delay_bounds_witness :
  60 <= _calculate_retry_delay 1
  /\ _calculate_retry_delay 1 <= _calculate_retry_delay 9
  /\ _calculate_retry_delay 9 <= 600.
Proof. apply (calculate_retry_delay_bounds 1 9); lia. Defined.

(** The frame of a stage task never lets an exception escape, and asks
    for a retry only below the bound of the task decorator. *)
Lemma stage_task_exit {A} hmax task_name fid retries (executor : M A) w :
  exists exit w',
    Tasks.stage_task hmax task_name fid retries executor w = (Return exit, w')
    /\ (is_retry exit = true -> retries < Tasks.task_max_retries).
Proof.
  unfold Tasks.stage_task, try_except, bind.
  destruct (executor w) as [[a|e] w1].
  - eexists _, _. split; [reflexivity|]. discriminate.
  - unfold handle_task_error, bind.
    destruct (add_log fid "ERROR" _ None _ w1) as [[[]|x] w2] eqn:Elog;
      [|discriminate Elog].
    destruct (_should_retry hmax e retries).
    + eexists _, _. split; [reflexivity|]. unfold retry_or_fail. cbn.
      destruct (retries <? Tasks.task_max_retries) eqn:Hlt; [|discriminate].
      intros _. now apply Z.ltb_lt.
    + destruct (update_status fid "failed" _ [] w2) as [[b|x] w3] eqn:Eup.
      * eexists _, _. split; [reflexivity|]. discriminate.
      * unfold update_status in Eup.
        destruct (find_file fid (files w2)); discriminate Eup.
Qed.

Lemma celery_deliver_bound {A B} hmax task_name fid (executor : attempt B -> M A) :
  forall (attempts : list (attempt B)) (r0 : Z) (w : World),
    attempts <> [] ->
    exists exit r w',
      celery_deliver
        (fun retries a => Tasks.stage_task hmax task_name fid retries (executor a))
        r0 attempts w
      = (Return (Some (exit, r)), w')
      /\ r0 <= r < r0 + Z.of_nat (List.length attempts)
      /\ (r0 <= Tasks.task_max_retries -> r <= Tasks.task_max_retries)
      /\ (is_retry exit = true ->
          r < Tasks.task_max_retries
          /\ r = r0 + Z.of_nat (List.length attempts) - 1).
Proof.
  induction attempts as [|a rest IH]; intros r0 w Hne; [contradiction|].
  cbn [celery_deliver]. unfold bind at 1.
  destruct (stage_task_exit hmax task_name fid r0 (executor a) w)
    as [exit [w1 [E Hretry]]].
  rewrite E.
  destruct rest as [|b rest'].
  - exists exit, r0, w1. cbn [List.length].
    split; [destruct exit; reflexivity|].
    split; [lia|]. split; [lia|]. intro H. split; [now apply Hretry | lia].
  - destruct exit as [x|info|countdown].
    + exists (Succeeded x), r0, w1. cbn [List.length].
      split; [reflexivity|]. split; [lia|]. split; [lia|]. discriminate.
    + exists (Failed info), r0, w1. cbn [List.length].
      split; [reflexivity|]. split; [lia|]. split; [lia|]. discriminate.
    + specialize (Hretry eq_refl).
      unfold bind at 1. cbn [elapse modify].
      destruct (IH (r0 + 1) (with_clock w1 (clock w1 + countdown)))
        as [exit' [r [w' [E' [Hr [Hmax Hre]]]]]]; [discriminate|].
      exists exit', r, w'. split; [exact E'|].
      cbn [List.length] in *. rewrite !Nat2Z.inj_succ in *.
      split; [lia|]. split; [intros _; apply Hmax; lia|].
      intro H. destruct (Hre H) as [H1 H2]. split; lia.
Qed.

(** A stage task runs at most four times.  Whatever executor it wraps,
    whatever the collaborator does, and whatever bound the error handler is
    configured with, the delivery ends with [request.retries] at most 3;
    and when four attempts are available it does not end on a retry
    request. *)
Theorem stage_task_runs_at_most_four_times
    {A B : Type} (hmax : Z) (task_name fid : string)
    (executor : attempt B -> M A) (attempts : list (attempt B)) (w : World)
    (Hne : attempts <> []) :
  exists exit r w',
    deliver_stage hmax task_name fid executor attempts w
    = (Return (Some (exit, r)), w')
    /\ 0 <= r <= 3
    /\ r < Z.of_nat (List.length attempts)
    /\ ((4 <= List.length attempts)%nat -> is_retry exit = false).
Proof.
  unfold deliver_stage.
  destruct (celery_deliver_bound hmax task_name fid executor attempts 0 w Hne)
    as [exit [r [w' [E [Hr [Hmax Hre]]]]]].
  exists exit, r, w'. split; [exact E|].
  change Tasks.task_max_retries with 3 in *.
  split; [split; [lia | apply Hmax; lia]|]. split; [lia|].
  intro Hlen. destruct (is_retry exit) eqn:Hx; [|reflexivity].
  destruct (Hre eq_refl) as [H1 H2]. lia.
Qed.

Lemma stage_task_runs_at_most_four_times_witness :
  exists exit r w',
    deliver_stage 10 "download_file" "f1"
      (FileOperations.download_file "f1" None None)
      [connection_refused; connection_refused; connection_refused;
       connection_refused; connection_refused; connection_refused]
      (sample_world [sample_row "f1" "pending" 0])
    = (Return (Some (exit, r)), w')
    /\ 0 <= r <= 3
    /\ r < Z.of_nat 6
    /\ ((4 <= 6)%nat -> is_retry exit = false).
Proof.
  apply (stage_task_runs_at_most_four_times 10 "download_file" "f1"
           (FileOperations.download_file "f1" None None)).
  discriminate.
Defined.

(** ** The download task *)

Lemma download_service_fails_exact fid stage count u w url name net e :
  item_at fid stage count u w ->
  truthy (py_or url u) = true ->
  outcome net = Raise e ->
  exists w',
    FileOperations.download_file fid url name net w
    = (Raise (Exception (download_error_message e)), w')
    /\ truthy (Some (download_error_message e)) = true
    /\ item_at fid "failed" (count + 1) u w'
    /\ List.length (logs w') = (2 + List.length (logs w))%nat.
Proof.
  intros Hitem Hurl Hout.
  unfold FileOperations.download_file, FileOperations.download_file_try, try_except.
  destruct (update_status_item _ _ _ _ _ "downloading" None Hitem)
    as [w1 [E1 [H1 [L1 _]]]].
  unfold bind at 1. rewrite E1. cbn [truthy] in H1.
  destruct (add_log_item _ _ _ _ _ fid "INFO" ("开始下载文件: " ++ fid) None None H1)
    as [w2 [E2 [H2 [L2 _]]]].
  unfold bind at 1. rewrite E2.
  destruct (get_file_status_item _ _ _ _ _ H2) as [row [E3 Hrow]].
  unfold bind at 1. rewrite E3. rewrite Hrow, Hurl. cbn [negb].
  destruct (elapse_item _ _ _ _ _ (took net) H2) as [w3 [E4 [H3 L3]]].
  unfold bind at 1. rewrite E4. rewrite Hout. unfold raise at 1.
  fold (download_error_message e).
  assert (Htruthy : truthy (Some (download_error_message e)) = true).
  { unfold download_error_message.
    destruct (isinstance e C_RequestException); reflexivity. }
  destruct (update_status_item _ _ _ _ _ "failed"
              (Some (download_error_message e)) H3)
    as [w4 [E5 [H4 [L4 _]]]].
  rewrite Htruthy in H4.
  unfold bind at 1. rewrite E5.
  destruct (add_log_item _ _ _ _ _ fid "ERROR" (download_error_message e)
              None None H4)
    as [w5 [E6 [H5 [L5 _]]]].
  unfold bind at 1. rewrite E6.
  exists w5. split; [reflexivity|]. split; [exact Htruthy|]. split; [exact H5|].
  rewrite L5, L4, L3, L2, L1, !length_app. cbn. lia.
Qed.

Lemma handle_unretryable_failure hmax fid stage count u w task_name retries message :
  item_at fid stage count u w ->
  has_retry_keyword message = false ->
  truthy (Some message) = true ->
  exists w' info,
    handle_task_error hmax (Exception message) fid task_name retries w
    = (Return info, w')
    /\ get_should_retry info = false
    /\ ei_error_message info = message
    /\ item_at fid "failed" (count + 1) u w'
    /\ List.length (logs w') = (1 + List.length (logs w))%nat.
Proof.
  intros Hitem Hkw Htruthy.
  unfold handle_task_error.
  match goal with
  | |- context [add_log fid "ERROR" ?m None ?x] =>
      destruct (add_log_item _ _ _ _ _ fid "ERROR" m None x Hitem)
        as [w1 [E1 [H1 [Hlog1 _]]]]
  end.
  unfold bind at 1. rewrite E1.
  assert (Hdecide : _should_retry hmax (Exception message) retries = false).
  { unfold _should_retry. destruct (retries >=? hmax); [reflexivity|].
    change (isinstance_any (Exception message) retryable_errors) with false.
    cbv iota. exact Hkw. }
  rewrite Hdecide.
  destruct (update_status_item _ _ _ _ _ "failed" (Some message) H1)
    as [w2 [E2 [H2 [Hlog2 _]]]].
  rewrite Htruthy in H2.
  unfold bind at 1. cbn [exc_msg Exception]. rewrite E2.
  exists w2. eexists. split; [reflexivity|]. split; [reflexivity|].
  split; [reflexivity|].
  split; [exact H2|]. rewrite Hlog2, Hlog1, length_app. cbn. lia.
Qed.

(** One failed download that is not retried is counted twice.  The
    executor marks the item failed and counts the failure, and the error
    handler, deciding against a retry, marks it failed and counts it again:
    the task returns its failure dictionary, the stored counter is two
    higher, and three entries have joined the event log. *)
Theorem download_failure_without_retry_counts_twice
    (hmax retries : Z) (fid stage : string) (count : Z) (u : option string)
    (w : World) (url name : option string) (net : attempt string) (e : exn)
    (Hitem : item_at fid stage count u w)
    (Hurl : truthy (py_or url u) = true)
    (Hout : outcome net = Raise e)
    (Hkw : has_retry_keyword (download_error_message e) = false) :
  exists w' info,
    Tasks.download_file hmax retries fid url name net w
    = (Return (Failed info), w')
    /\ ei_error_message info = download_error_message e
    /\ item_at fid "failed" (count + 2) u w'
    /\ List.length (logs w') = (3 + List.length (logs w))%nat.
Proof.
  destruct (download_service_fails_exact _ _ _ _ _ url name net e Hitem Hurl Hout)
    as [w1 [E1 [Htruthy [H1 L1]]]].
  destruct (handle_unretryable_failure hmax _ _ _ _ _ "download_file" retries
              (download_error_message e) H1 Hkw Htruthy)
    as [w2 [info [E2 [Hshould [Hmsg [H2 L2]]]]]].
  exists w2, info.
  unfold Tasks.download_file, Tasks.stage_task, try_except.
  unfold bind at 1. rewrite E1. unfold bind at 1. rewrite E2.
  unfold ret, retry_or_fail. rewrite Hshould. cbn [andb].
  split; [reflexivity|]. split; [exact Hmsg|].
  split; [now rewrite <- Z.add_assoc in H2|]. rewrite L2, L1. lia.
Qed.

Lemma download_failure_without_retry_counts_twice_witness :
  exists w' info,
    Tasks.download_file MAX_RETRIES 0 "f1" None None
      (mk_attempt 10 (Raise (mk_exn C_ReqHTTPError "404 Client Error: Not Found"
                                    EmptyString)))
      (sample_world [sample_row "f1" "pending" 0])
    = (Return (Failed info), w')
    /\ ei_error_message info
       = download_error_message
           (mk_exn C_ReqHTTPError "404 Client Error: Not Found" EmptyString)
    /\ item_at "f1" "failed" (0 + 2) (Some "http://files/f1") w'
    /\ List.length (logs w')
       = (3 + List.length (logs (sample_world [sample_row "f1" "pending" 0])))%nat.
Proof.
  apply (download_failure_without_retry_counts_twice MAX_RETRIES 0 "f1" "pending").
  - exists (sample_row "f1" "pending" 0). repeat split; reflexivity.
  - reflexivity.
  - reflexivity.
  - reflexivity.
Defined.

Lemma write_file_item fid stage count u w p :
  item_at fid stage count u w ->
  exists w',
    write_file p w = (Return tt, w')
    /\ item_at fid stage count u w' /\ In p (disk w') /\ clock w' = clock w.
Proof.
  intro H. eexists. split; [reflexivity|]. split; [exact H|].
  split; [|reflexivity]. cbn.
  destruct (existsb (String.eqb p) (disk w)) eqn:E.
  - apply existsb_exists in E. destruct E as [q [Hq Heq]].
    apply String.eqb_eq in Heq. now subst q.
  - apply in_or_app. right. now left.
Qed.

Lemma update_status_downloaded fid stage count u w p key :
  item_at fid stage count u w ->
  exists w',
    update_status fid "downloaded" None
      [kw_download_path (Some p); kw_other key] w = (Return true, w')
    /\ downloaded_at fid p count w' /\ disk w' = disk w.
Proof.
  intros [row [Hfind [Hst [Hrc Hurl]]]].
  eexists. split; [apply (update_status_found _ _ _ _ _ _ Hfind)|].
  split; [|reflexivity].
  eexists. cbn [files with_files].
  rewrite find_update_first_same by (intro; apply apply_update_file_id).
  rewrite Hfind. split; [reflexivity|]. cbn. repeat split. exact Hrc.
Qed.

Lemma download_task_succeeds hmax retries fid stage count u w url name net saved :
  item_at fid stage count u w ->
  truthy (py_or url u) = true ->
  outcome net = Return saved ->
  exists w',
    Tasks.download_file hmax retries fid url name net w
    = (Return (Succeeded (download_path_of fid saved)), w')
    /\ downloaded_at fid (download_path_of fid saved) count w'
    /\ In (download_path_of fid saved) (disk w').
Proof.
  intros Hitem Hurl Hout.
  unfold Tasks.download_file, Tasks.stage_task, FileOperations.download_file,
    FileOperations.download_file_try, try_except.
  destruct (update_status_item _ _ _ _ _ "downloading" None Hitem)
    as [w1 [E1 [H1 _]]].
  unfold bind at 1 2. rewrite E1. cbn [truthy] in H1.
  destruct (add_log_item _ _ _ _ _ fid "INFO" ("开始下载文件: " ++ fid) None None H1)
    as [w2 [E2 [H2 _]]].
  unfold bind at 1. rewrite E2.
  destruct (get_file_status_item _ _ _ _ _ H2) as [row [E3 Hrow]].
  unfold bind at 1. rewrite E3. rewrite Hrow, Hurl. cbn [negb].
  destruct (elapse_item _ _ _ _ _ (took net) H2) as [w3 [E4 [H3 _]]].
  unfold bind at 1. rewrite E4. rewrite Hout.
  fold (download_path_of fid saved).
  destruct (write_file_item _ _ _ _ _ (download_path_of fid saved) H3)
    as [w4 [E5 [H4 [Hdisk _]]]].
  unfold bind at 1. rewrite E5.
  destruct (update_status_downloaded _ _ _ _ _ (download_path_of fid saved)
              "download_time" H4)
    as [w5 [E6 [H5 Hd5]]].
  unfold bind at 1. rewrite E6.
  unfold bind at 1. cbn [add_log modify ret].
  eexists. split; [reflexivity|]. split.
  - destruct H5 as [r5 H5]. exists r5. exact H5.
  - cbn. rewrite Hd5. exact Hdisk.
Qed.

(** A download that succeeds on its second delivery: after one failure
    that asks for a retry and one success, the item is stored as downloaded
    at the saved path, the file is on disk, the task ran with
    [request.retries] = 1, and the stored counter still counts the failure:
    success does not bring it back. *)
Theorem download_retry_then_success
    (fid stage : string) (count : Z) (u : option string) (w : World)
    (url name : option string) (a1 a2 : attempt string) (saved : string)
    (Hitem : item_at fid stage count u w)
    (Hurl : truthy (py_or url u) = true)
    (H1 : fails_retryably a1 = true)
    (H2 : outcome a2 = Return saved) :
  exists w',
    deliver_download fid url name [a1; a2] w
    = (Return (Some (Succeeded (download_path_of fid saved), 1)), w')
    /\ downloaded_at fid (download_path_of fid saved) (count + 1) w'
    /\ In (download_path_of fid saved) (disk w').
Proof.
  apply fails_retryably_inv in H1. destruct H1 as [e1 [O1 K1]].
  unfold deliver_download. cbn [celery_deliver]. change (0 + 1) with 1.
  destruct (download_task_fails _ _ _ _ _ url name a1 e1 0 Hitem Hurl O1 K1)
    as [w1 [i1 [E1 [_ [I1 _]]]]].
  change (0 <? 3) with true in E1, I1. cbv iota in E1, I1.
  unfold bind at 1. rewrite E1.
  destruct (elapse_item _ _ _ _ _ (_calculate_retry_delay 0) I1)
    as [w1' [T1 [I1' _]]].
  unfold bind at 1. rewrite T1.
  destruct (download_task_succeeds MAX_RETRIES 1 _ _ _ _ _ url name a2 saved
              I1' Hurl H2)
    as [w2 [E2 [D2 F2]]].
  unfold bind at 1. rewrite E2.
  exists w2. split; [reflexivity|]. split; assumption.
Qed.

Lemma download_retry_then_success_witness :
  exists w',
    deliver_download "f1" None None
      [connection_refused; mk_attempt 5 (Return "f1.pdf")]
      (sample_world [sample_row "f1" "pending" 0])
    = (Return (Some (Succeeded (download_path_of "f1" "f1.pdf"), 1)), w')
    /\ downloaded_at "f1" (download_path_of "f1" "f1.pdf") (0 + 1) w'
    /\ In (download_path_of "f1" "f1.pdf") (disk w').
Proof.
  apply (download_retry_then_success "f1" "pending" 0 (Some "http://files/f1")).
  - exists (sample_row "f1" "pending" 0). repeat split; reflexivity.
  - reflexivity.
  - reflexivity.
  - reflexivity.
Defined.

(** A download for an identifier the store does not know creates no
    record: whatever the network would answer and whatever the retry
    counts, the table and the disk are left as they were, the network is
    not called (the clock does not move), and the task does not report
    success. *)
Theorem download_unknown_id_creates_nothing
    (hmax retries : Z) (fid : string) (url name : option string)
    (net : attempt string) (w : World)
    (Hmissing : find_file fid (files w) = None) :
  exists exit w',
    Tasks.download_file hmax retries fid url name net w = (Return exit, w')
    /\ is_success exit = false
    /\ files w' = files w /\ disk w' = disk w /\ clock w' = clock w.
Proof.
  unfold Tasks.download_file, Tasks.stage_task, FileOperations.download_file,
    FileOperations.download_file_try, try_except, handle_task_error,
    bind, update_status, add_log, modify, get_file_status, gets, raise, ret.
  cbn [files with_logs]. rewrite !Hmissing. cbn [files with_logs].
  rewrite !Hmissing. cbn [files with_logs].
  match goal with
  | |- context [_should_retry ?a ?b ?c] => destruct (_should_retry a b c)
  end.
  - eexists _, _. split; [reflexivity|]. unfold retry_or_fail. cbn.
    destruct (retries <? Tasks.task_max_retries); repeat split; reflexivity.
  - cbn [files with_logs]. rewrite !Hmissing.
    eexists _, _. split; [reflexivity|]. repeat split; reflexivity.
Qed.

Lemma download_unknown_id_creates_nothing_witness :
  exists exit w',
    Tasks.download_file MAX_RETRIES 0 "ghost" None None
      (mk_attempt 5 (Return "ghost.pdf"))
      (sample_world [sample_row "f1" "pending" 0])
    = (Return exit, w')
    /\ is_success exit = false
    /\ files w' = files (sample_world [sample_row "f1" "pending" 0])
    /\ disk w' = disk (sample_world [sample_row "f1" "pending" 0])
    /\ clock w' = clock (sample_world [sample_row "f1" "pending" 0]).
Proof.
  apply (download_unknown_id_creates_nothing MAX_RETRIES 0 "ghost").
  reflexivity.
Defined.

(** ** Re-submitting work *)

(** The error handler writes the log and the table only. *)
Lemma handle_task_error_keeps_queue hmax e fid task_name retries w :
  queue (snd (handle_task_error hmax e fid task_name retries w)) = queue w
  /\ disk (snd (handle_task_error hmax e fid task_name retries w)) = disk w.
Proof.
  unfold handle_task_error, bind, add_log, modify, update_status, ret.
  destruct (_should_retry hmax e retries); [split; reflexivity|].
  cbn [files with_logs].
  destruct (find_file fid (files w)); split; reflexivity.
Qed.

(** [process_single_file] cannot resume.  For an item stored in any stage
    other than pending or downloaded, also completed, the task dispatches
    nothing, raises its download error, and the error handler marks the
    item failed and counts a failure (the message carries no retry keyword
    unless the identifier itself does). *)
Theorem process_single_file_cannot_resume
    (hmax : Z) (env : environment) (retries : Z) (fid : string)
    (use_semantic : bool) (w : World) (stage : string) (count : Z)
    (u : option string)
    (Hitem : item_at fid stage count u w)
    (Hpending : stage <> "pending")
    (Hdownloaded : stage <> "downloaded")
    (Hkw : has_retry_keyword ("文件下载失败: " ++ fid) = false) :
  exists info trace w',
    run hmax env (Pipeline.process_single_file retries fid use_semantic) w
    = (Return (Failed info, trace), w')
    /\ ei_error_message info = "文件下载失败: " ++ fid
    /\ queue w' = queue w
    /\ item_at fid "failed" (count + 1) u w'.
Proof.
  pose proof Hitem as [row [Hfind [Hst [Hrc Hu]]]].
  apply String.eqb_neq in Hpending, Hdownloaded.
  destruct (handle_unretryable_failure hmax _ _ _ _ _ "process_single_file"
              retries ("文件下载失败: " ++ fid) Hitem Hkw eq_refl)
    as [w2 [info [E2 [Hshould [Hmsg [H2 L2]]]]]].
  exists info. eexists. exists w2.
  unfold Pipeline.process_single_file, Pipeline.process_single_file_try,
    call, xbind, status_of.
  cbn [tbind]. rewrite run_vis. cbn [handle].
  unfold get_file_status at 1, gets. rewrite Hfind.
  rewrite Hst, Hpending. cbn [tbind]. rewrite run_vis. cbn [handle].
  unfold get_file_status at 1, gets. rewrite Hfind.
  cbn [tbind]. rewrite Hst, Hdownloaded. cbn [negb tbind].
  rewrite run_vis. cbn [handle]. rewrite E2.
  cbn [run ret fst snd]. unfold retry_or_fail. rewrite Hshould. cbn [andb].
  split; [reflexivity|]. split; [exact Hmsg|]. split; [|exact H2].
  pose proof (handle_task_error_keeps_queue hmax
                (Exception ("文件下载失败: " ++ fid)) fid "process_single_file"
                retries w) as [Hq _].
  rewrite E2 in Hq. exact Hq.
Qed.

Lemma process_single_file_cannot_resume_witness :
  exists info trace w',
    run MAX_RETRIES quiet_environment
        (Pipeline.process_single_file 0 "f1" false)
        (sample_world [sample_row "f1" "completed" 0])
    = (Return (Failed info, trace), w')
    /\ ei_error_message info = "文件下载失败: " ++ "f1"
    /\ queue w' = queue (sample_world [sample_row "f1" "completed" 0])
    /\ item_at "f1" "failed" (0 + 1) (Some "http://files/f1") w'.
Proof.
  apply (process_single_file_cannot_resume MAX_RETRIES quiet_environment 0 "f1"
           false _ "completed" 0 (Some "http://files/f1")).
  - exists (sample_row "f1" "completed" 0). repeat split; reflexivity.
  - discriminate.
  - discriminate.
  - reflexivity.
Defined.

Lemma run_retry_failed_files hmax env max_retry_count w :
  unique_ids (files w) ->
  run hmax env (Pipeline.retry_failed_files max_retry_count) w
  = (Return (Z.of_nat (List.length (filter (reactivates max_retry_count) (files w))),
             Observed E_get_failed_files
             :: flat_map sweep_calls (filter (reactivates max_retry_count) (files w))),
     mk_world
       (map (fun r => if reactivates max_retry_count r
                      then set_status r "pending" (clock w) else r) (files w))
       (logs w) (disk w) (clock w)
       (queue w ++ map (fun r => call_process_single_file (file_id r))
                       (filter (reactivates max_retry_count) (files w)))).
Proof.
  intro Huniq.
  unfold Pipeline.retry_failed_files. rewrite run_vis.
  cbn [handle]. unfold get_failed_files, get_files_by_status, gets.
  change (filter (fun r => String.eqb (status r) "failed") (files w))
    with (filter is_failed (files w)).
  now rewrite (run_retry_loop hmax env max_retry_count (files w) [] 0 w eq_refl Huniq).
Qed.

Lemma reactivated_not_again max_retry_count now (l : list FileProcessingStatus) :
  filter (reactivates max_retry_count)
         (map (fun r => if reactivates max_retry_count r
                        then set_status r "pending" now else r) l) = [].
Proof.
  induction l as [|r l IH]; cbn [map filter]; [reflexivity|].
  destruct (reactivates max_retry_count r) eqn:E.
  - unfold reactivates at 1. unfold is_failed. cbn. exact IH.
  - rewrite E. exact IH.
Qed.

Lemma reactivated_ids max_retry_count now (l : list FileProcessingStatus) :
  map file_id (map (fun r => if reactivates max_retry_count r
                             then set_status r "pending" now else r) l)
  = map file_id l.
Proof.
  rewrite map_map. apply map_ext. intro r.
  destruct (reactivates max_retry_count r); reflexivity.
Qed.

(** A second sweep right after the first finds nothing to do: the items
    the first sweep re-activated are pending, the others were over the
    bound, so the second sweep reports 0, dispatches nothing and leaves the
    world as the first sweep left it. *)
Theorem retry_sweep_twice
    (hmax : Z) (env : environment) (max_retry_count : Z) (w : World)
    (Huniq : unique_ids (files w)) :
  let w1 := snd (run hmax env (Pipeline.retry_failed_files max_retry_count) w) in
  run hmax env (Pipeline.retry_failed_files max_retry_count) w1
  = (Return (0, [Observed E_get_failed_files]), w1).
Proof.
  intro w1. subst w1. rewrite (run_retry_failed_files _ _ _ _ Huniq).
  cbn [snd]. rewrite run_retry_failed_files.
  - cbn [files logs disk clock queue].
    rewrite reactivated_not_again. cbn [List.length flat_map map].
    rewrite app_nil_r. do 2 f_equal.
    rewrite map_map. apply map_ext_in. intros r _.
    destruct (reactivates max_retry_count r) eqn:E.
    + unfold reactivates at 1. unfold is_failed. cbn. reflexivity.
    + now rewrite E.
  - unfold unique_ids. cbn [files]. now rewrite reactivated_ids.
Qed.

Lemma retry_sweep_twice_witness :
  let w := sample_world [sample_row "a" "failed" 0; sample_row "b" "failed" 5] in
  let w1 := snd (run MAX_RETRIES quiet_environment
                     (Pipeline.retry_failed_files 3) w) in
  run MAX_RETRIES quiet_environment (Pipeline.retry_failed_files 3) w1
  = (Return (0, [Observed E_get_failed_files]), w1).
Proof.
  apply (retry_sweep_twice MAX_RETRIES quiet_environment 3).
  unfold unique_ids. cbn.
  repeat (constructor; [cbn; intuition discriminate|]). constructor.
Defined.

(** ** The cleanup *)

Lemma unique_ids_filter (p : FileProcessingStatus -> bool) l :
  unique_ids l -> unique_ids (filter p l).
Proof.
  unfold unique_ids. induction l as [|r l IH]; cbn; intro H; [exact H|].
  inversion H as [|? ? Hnot Hnd]; subst.
  destruct (p r); cbn; [|now apply IH].
  constructor; [|now apply IH].
  intro Hin. apply Hnot. apply in_map_iff in Hin. destruct Hin as [x [Hx Hin]].
  apply filter_In in Hin. apply in_map_iff. exists x. tauto.
Qed.

(** [cleanup_failed_files] purges exactly the old failed items.  A row
    survives if and only if it is not failed or was updated at or after the
    cutoff; a file survives if and only if no purged row records it as its
    download or markdown path; the result is the number of purged rows; and
    the event log, also the entries of the purged items, is never touched. *)
Theorem cleanup_purges_exactly_old_failed
    (older_than_hours : Z) (w : World) (Huniq : unique_ids (files w)) :
  let cutoff := clock w - timedelta_hours older_than_hours in
  let purged := filter (cleanup_selects cutoff) (files w) in
  let w' := snd (cleanup_failed_files older_than_hours w) in
  fst (cleanup_failed_files older_than_hours w)
  = Return (Z.of_nat (List.length purged))
  /\ (forall r, In r (files w') <->
                In r (files w)
                /\ ~ (status r = "failed" /\ updated_at r < cutoff))
  /\ (forall p, In p (disk w') <->
                In p (disk w)
                /\ ~ (exists r, In r purged /\ In p (recorded_paths r)))
  /\ logs w' = logs w.
Proof.
  intros cutoff purged w'. subst w'.
  rewrite (cleanup_failed_files_effect older_than_hours w Huniq).
  fold cutoff. fold purged. cbn [fst snd files disk logs].
  split; [reflexivity|]. split; [|split; [|reflexivity]].
  - intro r. rewrite filter_In. unfold cleanup_selects.
    rewrite negb_true_iff, andb_false_iff, String.eqb_neq, Z.ltb_ge.
    split; intros [Hin H]; (split; [exact Hin|]).
    + intros [Hs Hu]. destruct H; [contradiction | lia].
    + destruct (String.eqb (status r) "failed") eqn:E.
      * apply String.eqb_eq in E. right.
        destruct (Z.lt_ge_cases (updated_at r) cutoff); [|assumption].
        exfalso. apply H. now split.
      * apply String.eqb_neq in E. now left.
  - intro p. rewrite filter_In, negb_true_iff.
    split; intros [Hin H]; (split; [exact Hin|]).
    + intros [r [Hr Hp]].
      assert (existsb (String.eqb p) (flat_map recorded_paths purged) = true).
      { apply existsb_exists. exists p. split; [|apply String.eqb_refl].
        apply in_flat_map. now exists r. }
      congruence.
    + destruct (existsb _ (flat_map recorded_paths purged)) eqn:E; [|reflexivity].
      exfalso. apply H. apply existsb_exists in E. destruct E as [q [Hq Heq]].
      apply String.eqb_eq in Heq. subst q. apply in_flat_map in Hq.
      destruct Hq as [r [Hr Hp]]. now exists r.
Qed.

Lemma cleanup_purges_exactly_old_failed_witness :
  fst (cleanup_failed_files 24 failed_after_chunking)
  = Return (Z.of_nat (List.length
      (filter (cleanup_selects
                 (clock failed_after_chunking - timedelta_hours 24))
              (files failed_after_chunking)))).
Proof.
  assert (Huniq : unique_ids (files failed_after_chunking)).
  { unfold unique_ids. vm_compute. constructor; [intros []|constructor]. }
  destruct (cleanup_purges_exactly_old_failed 24 failed_after_chunking Huniq)
    as [Hcount _].
  exact Hcount.
Defined.

(** The cleanup is idempotent: run again at the same time with the same
    threshold, it finds nothing, returns 0 and changes nothing. *)
Theorem cleanup_twice
    (older_than_hours : Z) (w : World) (Huniq : unique_ids (files w)) :
  let w1 := snd (cleanup_failed_files older_than_hours w) in
  cleanup_failed_files older_than_hours w1 = (Return 0, w1).
Proof.
  intro w1. subst w1.
  rewrite (cleanup_failed_files_effect older_than_hours w Huniq). cbn [snd].
  rewrite cleanup_failed_files_effect
    by (cbn [files]; now apply unique_ids_filter).
  cbn [files logs disk clock queue].
  rewrite !filter_filter_and.
  assert (Hnone : filter
            (fun x => negb (cleanup_selects
                              (clock w - timedelta_hours older_than_hours) x)
                      && cleanup_selects
                           (clock w - timedelta_hours older_than_hours) x)
            (files w) = []).
  { clear Huniq. induction (files w) as [|r l IH]; cbn; [reflexivity|].
    destruct (cleanup_selects _ r); cbn; exact IH. }
  rewrite Hnone. cbn [List.length flat_map existsb negb].
  f_equal. f_equal.
  - apply filter_ext. intro x. now destruct (cleanup_selects _ x).
  - apply filter_ext. intro x. now rewrite andb_true_r.
Qed.

Lemma cleanup_twice_witness :
  cleanup_failed_files 24 (snd (cleanup_failed_files 24 failed_after_chunking))
  = (Return 0, snd (cleanup_failed_files 24 failed_after_chunking)).
Proof.
  assert (Huniq : unique_ids (files failed_after_chunking)).
  { unfold unique_ids. vm_compute. constructor; [intros []|constructor]. }
  exact (cleanup_twice 24 failed_after_chunking Huniq).
Defined.

(** ** Registering the listing *)

(** One entry of the listing either leaves the world alone, and then its
    identifier, if it has one, is already stored; or it has an identifier
    the store does not know and appends a pending row for it. *)
Lemma register_one_cases (info : file_info) (w : World) :
  (Registration.register_one info w = (Return tt, w)
   /\ forall fid, listed_id info = Some fid -> find_file fid (files w) <> None)
  \/ (exists fid name url,
        listed_id info = Some fid
        /\ find_file fid (files w) = None
        /\ Registration.register_one info w
           = (Return tt,
              with_files w (files w ++ [mk_file fid name url "pending"
                                          (clock w) (clock w)
                                          None None 0 0 None 0]))).
Proof.
  unfold Registration.register_one, listed_id.
  destruct (py_or (fi_id info) (fi_file_id info)) as [fid|];
    [|left; split; [reflexivity | discriminate]].
  destruct (py_or (fi_name info) (fi_file_name info)) as [name|];
    [|left; split; [reflexivity | discriminate]].
  destruct (truthy (Some fid) && truthy (Some name));
    [|left; split; [reflexivity | discriminate]].
  unfold bind, get_file_status, gets.
  destruct (find_file fid (files w)) as [row|] eqn:Hfind.
  - left. split; [reflexivity|]. intros f Hf. inversion Hf; subst. congruence.
  - right. exists fid, name, (py_or (fi_url info) (fi_download_url info)).
    split; [reflexivity|]. split; [exact Hfind|]. reflexivity.
Qed.

Lemma find_file_app_old fid (l added : list FileProcessingStatus) row :
  find_file fid l = Some row -> find_file fid (l ++ added) = Some row.
Proof.
  induction l as [|x l IH]; cbn; [discriminate|].
  destruct (String.eqb (file_id x) fid); [trivial | exact IH].
Qed.

Lemma register_files_effect (listing : list file_info) :
  forall w,
    unique_ids (files w) ->
    exists added,
      Registration.register_files listing w
      = (Return tt, with_files w (files w ++ added))
      /\ unique_ids (files w ++ added)
      /\ (forall row, In row added ->
            status row = "pending" /\ retry_count row = 0
            /\ exists info, In info listing /\ listed_id info = Some (file_id row))
      /\ (forall info fid, In info listing -> listed_id info = Some fid ->
            find_file fid (files w ++ added) <> None).
Proof.
  induction listing as [|info rest IH]; intros w Huniq.
  - exists []. cbn. rewrite app_nil_r. destruct w; cbn in *.
    repeat split; try assumption; try contradiction.
  - cbn [Registration.register_files]. unfold bind at 1.
    destruct (register_one_cases info w)
      as [[E Hpresent] | [fid [name [url [Hlisted [Hfresh E]]]]]]; rewrite E.
    + destruct (IH w Huniq) as [added [Erest [Hu [Hnew Hall]]]].
      exists added. split; [exact Erest|]. split; [exact Hu|]. split.
      * intros row Hrow. destruct (Hnew row Hrow) as [H1 [H2 [i [Hi Hl]]]].
        repeat split; try assumption. exists i. split; [now right | exact Hl].
      * intros i f [<-|Hin] Hl; [|now apply (Hall i)].
        specialize (Hpresent f Hl).
        destruct (find_file f (files w)) as [row|] eqn:Hf; [|contradiction].
        rewrite (find_file_app_old _ _ added _ Hf). discriminate.
    + set (row := mk_file fid name url "pending" (clock w) (clock w)
                          None None 0 0 None 0) in *.
      assert (Hu1 : unique_ids (files (with_files w (files w ++ [row])))).
      { unfold unique_ids. cbn [files with_files]. rewrite map_app. cbn.
        apply NoDup_snoc; [exact Huniq | now apply find_file_none_fresh]. }
      destruct (IH _ Hu1) as [added [Erest [Hu [Hnew Hall]]]].
      cbn [files with_files] in *.
      exists (row :: added). rewrite <- app_assoc in *. cbn [app] in *.
      split; [rewrite Erest; now destruct w|]. split; [exact Hu|]. split.
      * intros r [<-|Hr].
        -- repeat split. exists info. split; [now left | exact Hlisted].
        -- destruct (Hnew r Hr) as [H1 [H2 [i [Hi Hl]]]].
           repeat split; try assumption. exists i. split; [now right | exact Hl].
      * intros i f [<-|Hin] Hl; [|now apply (Hall i)].
        rewrite Hlisted in Hl. inversion Hl; subst f.
        rewrite find_file_app_skip by now apply find_file_none_fresh.
        cbn. rewrite String.eqb_refl. discriminate.
Qed.

(** A successful query is the registration of the listing, in a world
    whose table is the one before the query. *)
Lemma query_files_success (service : attempt (list file_info))
    (listing : list file_info) (w : World) :
  outcome service = Return listing ->
  exists w0,
    files w0 = files w
    /\ forall w1,
         Registration.register_files listing w0 = (Return tt, w1) ->
         Registration.query_files service w = (Return listing, w1).
Proof.
  intro Hout.
  unfold Registration.query_files, Registration.query_files_try, try_except,
    bind, add_log, elapse, modify, ret.
  rewrite Hout. cbv beta iota.
  eexists. split.
  2: { intros w1 E. rewrite E. reflexivity. }
  reflexivity.
Qed.

(** A successful [query_files] registers the listing without disturbing
    the store.  Every stored item is found exactly as before; every entry
    with an identifier and a name is stored afterwards; every new row is
    pending with a zero counter; identifiers stay unique even when the
    listing repeats one; and the listing is returned as received. *)
Theorem query_files_registers_listing
    (service : attempt (list file_info)) (listing : list file_info) (w : World)
    (Hout : outcome service = Return listing)
    (Huniq : unique_ids (files w)) :
  let w' := snd (Registration.query_files service w) in
  fst (Registration.query_files service w) = Return listing
  /\ unique_ids (files w')
  /\ (forall fid row, find_file fid (files w) = Some row ->
        find_file fid (files w') = Some row)
  /\ (forall info fid, In info listing -> listed_id info = Some fid ->
        find_file fid (files w') <> None)
  /\ (forall fid row, find_file fid (files w') = Some row ->
        find_file fid (files w) = Some row
        \/ (find_file fid (files w) = None
            /\ status row = "pending" /\ retry_count row = 0)).
Proof.
  intro w'. subst w'.
  destruct (query_files_success service listing w Hout) as [w0 [Hfiles Hrun]].
  destruct (register_files_effect listing w0) as [added [E [Hu [Hnew Hall]]]];
    [now rewrite Hfiles|].
  rewrite (Hrun _ E). rewrite Hfiles in *.
  cbn [fst snd files with_files].
  split; [reflexivity|]. split; [exact Hu|]. split; [|split; [exact Hall|]].
  - intros fid row Hf. now apply find_file_app_old.
  - intros fid row Hf.
    destruct (find_file fid (files w)) as [old|] eqn:Hold.
    + left. rewrite (find_file_app_old _ _ added _ Hold) in Hf. exact Hf.
    + right. split; [reflexivity|].
      rewrite find_file_app_skip in Hf by now apply find_file_none_fresh.
      destruct (find_file_some_id _ _ _ Hf) as [_ Hin].
      destruct (Hnew row Hin) as [H1 [H2 _]]. now split.
Qed.

Lemma query_files_registers_listing_witness :
  fst (Registration.query_files (mk_attempt 3 (Return sample_listing))
         (sample_world [sample_row "f2" "completed" 0]))
  = Return sample_listing.
Proof.
  apply (query_files_registers_listing (mk_attempt 3 (Return sample_listing))
           sample_listing (sample_world [sample_row "f2" "completed" 0])).
  - reflexivity.
  - unfold unique_ids. cbn. constructor; [intros []|constructor].
Defined.

Lemma register_files_noop (listing : list file_info) (w : World) :
  (forall info fid, In info listing -> listed_id info = Some fid ->
     find_file fid (files w) <> None) ->
  Registration.register_files listing w = (Return tt, w).
Proof.
  induction listing as [|info rest IH]; intro Hall; [reflexivity|].
  cbn [Registration.register_files]. unfold bind.
  destruct (register_one_cases info w)
    as [[E _] | [fid [name [url [Hlisted [Hfresh _]]]]]].
  - rewrite E. apply IH. intros i f Hin. apply Hall. now right.
  - exfalso. apply (Hall info fid); [now left | exact Hlisted | exact Hfresh].
Qed.

(** Registering is idempotent: a second [query_files] that receives the
    same listing adds no row and changes no row. *)
Theorem query_files_twice_adds_nothing
    (first second : attempt (list file_info)) (listing : list file_info)
    (w : World)
    (Hfirst : outcome first = Return listing)
    (Hsecond : outcome second = Return listing)
    (Huniq : unique_ids (files w)) :
  let w1 := snd (Registration.query_files first w) in
  files (snd (Registration.query_files second w1)) = files w1.
Proof.
  intro w1. subst w1.
  destruct (query_files_success first listing w Hfirst) as [w0 [Hfiles Hrun]].
  destruct (register_files_effect listing w0) as [added [E [Hu [Hnew Hall]]]];
    [now rewrite Hfiles|].
  rewrite (Hrun _ E). cbn [snd].
  destruct (query_files_success second listing
              (with_files w0 (files w0 ++ added)) Hsecond)
    as [w2 [Hfiles2 Hrun2]].
  rewrite (Hrun2 w2); [exact Hfiles2|].
  apply register_files_noop. rewrite Hfiles2. cbn [files with_files]. exact Hall.
Qed.

Lemma query_files_twice_adds_nothing_witness :
  files (snd (Registration.query_files (mk_attempt 9 (Return sample_listing))
           (snd (Registration.query_files (mk_attempt 3 (Return sample_listing))
                   (sample_world [sample_row "f2" "completed" 0])))))
  = files (snd (Registration.query_files (mk_attempt 3 (Return sample_listing))
                  (sample_world [sample_row "f2" "completed" 0]))).
Proof.
  apply (query_files_twice_adds_nothing
           (mk_attempt 3 (Return sample_listing))
           (mk_attempt 9 (Return sample_listing)) sample_listing).
  - reflexivity.
  - reflexivity.
  - unfold unique_ids. cbn. constructor; [intros []|constructor].
Defined.

(** ** The saved file name *)

Lemma string_app_nil_r (s : string) : s ++ EmptyString = s.
Proof. induction s as [|c s IH]; cbn; [reflexivity | now rewrite IH]. Qed.

Lemma ends_with_occurs (s suffix : string) :
  ends_with s suffix = true -> exists before, s = before ++ suffix.
Proof.
  induction s as [|c s IH]; cbn [ends_with]; rewrite orb_true_iff.
  - intros [H|H]; [|discriminate]. apply String.eqb_eq in H. subst.
    now exists EmptyString.
  - intros [H|H].
    + apply String.eqb_eq in H. subst. now exists EmptyString.
    + destruct (IH H) as [before Hb]. exists (String c before). cbn.
      now rewrite Hb.
Qed.

Lemma ends_with_empty (s : string) : ends_with s EmptyString = true.
Proof.
  induction s as [|c s IH]; [reflexivity|]. cbn [ends_with]. rewrite IH.
  apply orb_true_r.
Qed.

(** Every extension of the table starts with a dot. *)
Lemma content_type_extension_has_dot (key : string) :
  dict_get content_type_map key EmptyString = EmptyString
  \/ contains "." (dict_get content_type_map key EmptyString) = true.
Proof.
  unfold content_type_map. cbn [dict_get].
  repeat match goal with
         | |- context [if String.eqb ?k key then _ else _] =>
             destruct (String.eqb k key); [right; reflexivity|]
         end.
  now left.
Qed.

(** The name a download is saved under.  A name that has a dot is kept as
    it is, whatever the content type; a name without a dot gets the
    extension of the content type, looked up without regard to case, and is
    kept when the type is unknown; and computing the saved name again from
    the saved name changes nothing. *)
Theorem saved_file_name_extension (file_name content_type : string) :
  (contains "." file_name = true ->
   saved_file_name file_name content_type = file_name)
  /\ (contains "." file_name = false ->
      saved_file_name file_name content_type
      = file_name ++ dict_get content_type_map (lower content_type) EmptyString)
  /\ saved_file_name (saved_file_name file_name content_type) content_type
     = saved_file_name file_name content_type.
Proof.
  assert (Hdot : contains "." file_name = true ->
                 saved_file_name file_name content_type = file_name).
  { intro H. unfold saved_file_name, _get_file_extension. rewrite H.
    now rewrite ends_with_empty. }
  assert (Hnodot : contains "." file_name = false ->
                   saved_file_name file_name content_type
                   = file_name
                     ++ dict_get content_type_map (lower content_type) EmptyString).
  { intro H. unfold saved_file_name, _get_file_extension. rewrite H.
    destruct (ends_with file_name _) eqn:E; [|reflexivity]. cbn [negb].
    destruct (content_type_extension_has_dot (lower content_type)) as [H0|H1].
    - rewrite H0. now rewrite string_app_nil_r.
    - exfalso. apply ends_with_occurs in E. destruct E as [before Hb].
      apply contains_iff in H1. destruct H1 as [b [a Ha]].
      assert (Hocc : contains "." file_name = true).
      { apply contains_iff. exists (before ++ b), a. rewrite Hb, Ha.
        now rewrite string_app_assoc. }
      congruence. }
  split; [exact Hdot|]. split; [exact Hnodot|].
  destruct (contains "." file_name) eqn:Hc.
  - rewrite (Hdot eq_refl). unfold saved_file_name, _get_file_extension.
    rewrite Hc. now rewrite ends_with_empty.
  - rewrite (Hnodot eq_refl).
    destruct (content_type_extension_has_dot (lower content_type)) as [H0|H1].
    + rewrite H0, string_app_nil_r. unfold saved_file_name, _get_file_extension.
      rewrite Hc, H0. now rewrite ends_with_empty, string_app_nil_r.
    + unfold saved_file_name at 1, _get_file_extension.
      assert (Hocc : contains "." (file_name
                 ++ dict_get content_type_map (lower content_type) EmptyString)
                     = true).
      { apply contains_iff. apply occurs_app_l. now apply contains_iff. }
      rewrite Hocc. now rewrite ends_with_empty.
Qed.

(** ** Batches of the vectoriser *)

Lemma firstn_plus {A} (a b : nat) (l : list A) :
  firstn (a + b) l = (firstn a l ++ firstn b (skipn a l))%list.
Proof.
  revert l. induction a as [|a IH]; intro l; cbn; [reflexivity|].
  destruct l as [|x l]; cbn.
  - now rewrite firstn_nil.
  - now rewrite IH.
Qed.

Lemma concat_slices {A} (l : list A) (step m : nat) :
  List.concat (map (fun i => slice l i (i + step)) (map (fun k => k * step)%nat (seq 0 m)))
  = firstn (m * step) l.
Proof.
  induction m as [|m IH].
  - reflexivity.
  - rewrite seq_S, !map_app, concat_app, IH. cbn [map List.concat Nat.add].
    rewrite app_nil_r. unfold slice.
    replace (m * step + step - m * step)%nat with step by lia.
    replace (S m * step)%nat with (m * step + step)%nat by lia.
    now rewrite firstn_plus.
Qed.

Lemma ceil_div_covers (n step : nat) :
  (0 < step)%nat -> (n <= (n + step - 1) / step * step)%nat.
Proof.
  intro Hs.
  pose proof (Nat.div_mod_eq (n + step - 1) step) as Hdm.
  pose proof (Nat.mod_upper_bound (n + step - 1) step) as Hub.
  nia.
Qed.

Lemma ceil_div_tight (n step k : nat) :
  (0 < step)%nat -> (k < (n + step - 1) / step)%nat -> (k * step < n)%nat.
Proof.
  intros Hs Hk.
  pose proof (Nat.div_mod_eq (n + step - 1) step) as Hdm.
  pose proof (Nat.mod_upper_bound (n + step - 1) step) as Hub.
  nia.
Qed.

Lemma batches_concat (chunks : list string) :
  List.concat (map snd (Vectorizer.batches chunks)) = chunks.
Proof.
  unfold Vectorizer.batches, py_range_step, Vectorizer.batch_size.
  rewrite (map_map (fun i => (i, slice chunks i (i + 10))) snd). cbn [snd].
  rewrite (concat_slices chunks 10). apply firstn_all2.
  pose proof (ceil_div_covers (List.length chunks) 10). lia.
Qed.

(** The batches partition the chunks.  Put end to end, in order, they are
    the list of chunks again, so no chunk is dropped, repeated or moved;
    every batch holds between 1 and 10 chunks; and there are
    [ceil(n / 10)] batches, none for an empty list. *)
Theorem vectorizer_batches_partition (chunks : list string) :
  List.concat (map snd (Vectorizer.batches chunks)) = chunks
  /\ Forall (fun b => (1 <= List.length (snd b) <= 10)%nat)
            (Vectorizer.batches chunks)
  /\ List.length (Vectorizer.batches chunks)
     = ((List.length chunks + 9) / 10)%nat.
Proof.
  split; [|split];
    [| unfold Vectorizer.batches, py_range_step, Vectorizer.batch_size;
       replace (List.length chunks + 10 - 1)%nat
         with (List.length chunks + 9)%nat by lia ..].
  - apply batches_concat.
  - apply Forall_forall. intros b Hb.
    apply in_map_iff in Hb. destruct Hb as [i [<- Hi]].
    apply in_map_iff in Hi. destruct Hi as [k [<- Hk]].
    apply in_seq in Hk. cbn [snd]. unfold slice.
    replace (k * 10 + 10 - k * 10)%nat with 10%nat by lia.
    rewrite length_firstn, length_skipn.
    pose proof (ceil_div_tight (List.length chunks) 10 k).
    replace (List.length chunks + 10 - 1)%nat
      with (List.length chunks + 9)%nat in * by lia. lia.
  - now rewrite !length_map, length_seq.
Qed.

Lemma vectorize_loop_all_ok fid stage count u embed (f : list string -> list string) :
  (forall batch, outcome (embed batch) = Return (vec_ok (f batch))) ->
  forall (todo : list (nat * list string)) (acc : list string) (w : World),
    item_at fid stage count u w ->
    exists w',
      Vectorizer.vectorize_loop fid embed todo acc w
      = (Return (acc ++ List.concat (map (fun b => f (snd b)) todo))%list, w')
      /\ item_at fid stage count u w'.
Proof.
  intro Hok. induction todo as [|[i batch] rest IH]; intros acc w Hitem.
  - exists w. cbn. rewrite app_nil_r. split; [reflexivity | exact Hitem].
  - cbn [Vectorizer.vectorize_loop]. unfold Vectorizer._vectorize_batch.
    destruct (elapse_item _ _ _ _ _ (took (embed batch)) Hitem)
      as [w1 [E1 [H1 _]]].
    unfold bind at 1 2. rewrite E1, Hok. cbn [ret].
    destruct (add_log_item _ _ _ _ _ fid "INFO" "向量化进度" None None H1)
      as [w2 [E2 [H2 _]]].
    unfold bind at 1. rewrite E2.
    destruct (IH (acc ++ f batch)%list w2 H2) as [w3 [E3 H3]].
    exists w3. rewrite E3. cbn [map List.concat snd]. rewrite app_assoc.
    split; [reflexivity | exact H3].
Qed.

Lemma update_status_vectorized fid stage count u w n key :
  item_at fid stage count u w ->
  exists w',
    update_status fid "vectorized" None [kw_vector_count n; kw_other key] w
    = (Return true, w')
    /\ vectorized_with fid n count w'.
Proof.
  intros [row [Hfind [Hst [Hrc Hurl]]]].
  eexists. split; [apply (update_status_found _ _ _ _ _ _ Hfind)|].
  eexists. cbn [files with_files].
  rewrite find_update_first_same by (intro; apply apply_update_file_id).
  rewrite Hfind. split; [reflexivity|]. cbn. repeat split. exact Hrc.
Qed.

Lemma length_concat_map_same (f : list string -> list string)
    (bs : list (nat * list string)) :
  (forall batch, List.length (f batch) = List.length batch) ->
  List.length (List.concat (map (fun b => f (snd b)) bs))
  = List.length (List.concat (map snd bs)).
Proof.
  intro Hlen. induction bs as [|b bs IH]; cbn; [reflexivity|].
  now rewrite !length_app, Hlen, IH.
Qed.

(** [vectorize_chunks] when the service answers every batch: the result is
    the answers of the batches put end to end, the item is stored as
    vectorized with as many vectors as the service returned, and its
    failure counter is as before.  When the service returns one vector per
    chunk, the stored count is the number of chunks. *)
Theorem vectorize_chunks_counts_vectors
    (chunks : list string) (fid stage : string) (count : Z) (u : option string)
    (embed : list string -> attempt vec_response)
    (f : list string -> list string) (w : World)
    (Hitem : item_at fid stage count u w)
    (Hok : forall batch, outcome (embed batch) = Return (vec_ok (f batch))) :
  let vectors := List.concat (map (fun b => f (snd b)) (Vectorizer.batches chunks)) in
  exists w',
    Vectorizer.vectorize_chunks chunks fid embed w = (Return vectors, w')
    /\ vectorized_with fid (Z.of_nat (List.length vectors)) count w'
    /\ ((forall batch, List.length (f batch) = List.length batch) ->
        List.length vectors = List.length chunks).
Proof.
  intro vectors.
  unfold Vectorizer.vectorize_chunks, Vectorizer.vectorize_chunks_try, try_except.
  destruct (update_status_item _ _ _ _ _ "vectorizing" None Hitem)
    as [w1 [E1 [H1 _]]].
  unfold bind at 1. rewrite E1. cbn [truthy] in H1.
  destruct (add_log_item _ _ _ _ _ fid "INFO" ("开始向量化切片: " ++ fid)
              None None H1) as [w2 [E2 [H2 _]]].
  unfold bind at 1. rewrite E2.
  destruct (vectorize_loop_all_ok _ _ _ _ embed f Hok
              (Vectorizer.batches chunks) [] w2 H2) as [w3 [E3 H3]].
  unfold bind at 1. rewrite E3. cbn [app]. fold vectors.
  destruct (update_status_vectorized _ _ _ _ _
              (Z.of_nat (List.length vectors)) "vectorize_time" H3)
    as [w4 [E4 H4]].
  unfold bind at 1. rewrite E4.
  unfold bind at 1. cbn [add_log modify ret].
  eexists. split; [reflexivity|]. split.
  - destruct H4 as [row H4]. exists row. exact H4.
  - intro Hlen. subst vectors.
    now rewrite (length_concat_map_same f _ Hlen), batches_concat.
Qed.

Lemma vectorize_chunks_counts_vectors_witness :
  exists w',
    Vectorizer.vectorize_chunks
      ["a"; "b"; "c"; "d"; "e"; "f"; "g"; "h"; "i"; "j"; "k"; "l"] "f1"
      (fun batch => mk_attempt 4 (Return (vec_ok batch)))
      (sample_world [sample_row "f1" "chunked" 1])
    = (Return ["a"; "b"; "c"; "d"; "e"; "f"; "g"; "h"; "i"; "j"; "k"; "l"], w')
    /\ vectorized_with "f1" 12 1 w'.
Proof.
  destruct (vectorize_chunks_counts_vectors
              ["a"; "b"; "c"; "d"; "e"; "f"; "g"; "h"; "i"; "j"; "k"; "l"]
              "f1" "chunked" 1 (Some "http://files/f1")
              (fun batch => mk_attempt 4 (Return (vec_ok batch)))
              (fun batch => batch)
              (sample_world [sample_row "f1" "chunked" 1]))
    as [w' [E [Hv _]]].
  - exists (sample_row "f1" "chunked" 1). repeat split; reflexivity.
  - intro batch. reflexivity.
  - exists w'. split; [exact E | exact Hv].
Defined.

(** ** The error summary *)

Lemma dict_incr_total (d : list (string * Z)) (key : string) :
  dict_total (dict_incr d key) = dict_total d + 1.
Proof.
  induction d as [|[k n] d IH]; cbn; [reflexivity|].
  destruct (String.eqb k key); cbn; [lia|]. unfold dict_total in IH. rewrite IH. lia.
Qed.

Lemma dict_incr_keys (d : list (string * Z)) (key : string) :
  NoDup (map fst d) -> NoDup (map fst (dict_incr d key))
  /\ (forall k, In k (map fst (dict_incr d key)) -> k = key \/ In k (map fst d)).
Proof.
  induction d as [|[k n] d IH]; cbn; intro Hnd.
  - split; [constructor; [intros []|constructor]|]. intros k0 [H|[]]. now left.
  - inversion Hnd as [|? ? Hnot Hd]; subst.
    destruct (String.eqb k key) eqn:E; cbn.
    + split; [exact Hnd|]. intros k0 H. now right.
    + destruct (IH Hd) as [IH1 IH2]. split.
      * constructor; [|exact IH1]. intro Hin. destruct (IH2 _ Hin) as [->|H].
        -- rewrite String.eqb_refl in E. discriminate.
        -- contradiction.
      * intros k0 [<-|H]; [right; now left|].
        destruct (IH2 _ H) as [->|H']; [now left | right; now right].
Qed.

Lemma count_error_types_total (error_logs : list ProcessingLog) :
  forall d,
    NoDup (map fst d) ->
    let d' := fold_left
      (fun types log =>
         match log_extra_data log with
         | Some extra_data => dict_incr types (ei_error_type extra_data)
         | None => types
         end) error_logs d in
    dict_total d'
    = dict_total d
      + Z.of_nat (List.length (filter (fun log =>
                     match log_extra_data log with Some _ => true | None => false end)
                   error_logs))
    /\ NoDup (map fst d').
Proof.
  induction error_logs as [|log rest IH]; intros d Hnd; cbn [fold_left filter].
  - cbn. split; [lia | exact Hnd].
  - destruct (log_extra_data log) as [extra|].
    + destruct (IH (dict_incr d (ei_error_type extra))) as [H1 H2].
      { now apply dict_incr_keys. }
      split; [|exact H2]. cbn zeta in H1. rewrite H1, dict_incr_total.
      cbn [List.length]. lia.
    + apply IH. exact Hnd.
Qed.

(** [get_error_summary] for a file: [total_errors] is the number of ERROR
    rows of that file; the counters of [error_types] have distinct keys and
    add up to the number of those rows that carry extra data, so to at most
    [total_errors]; and [recent_errors] holds the last rows, ten of them
    when there are more than ten and all of them otherwise.  The query
    changes nothing. *)
Theorem get_error_summary_counts (fid : string) (w : World)
    (Hfid : fid <> EmptyString) :
  exists summary,
    get_error_summary (Some fid) w = (Return summary, w)
    /\ total_errors summary = Z.of_nat (List.length (error_logs_of fid w))
    /\ NoDup (map fst (error_types summary))
    /\ 0 <= dict_total (error_types summary) <= total_errors summary
    /\ List.length (recent_errors summary)
       = Nat.min 10 (List.length (error_logs_of fid w))
    /\ exists older, error_logs_of fid w = (older ++ recent_errors summary)%list.
Proof.
  unfold get_error_summary.
  assert (Ht : truthy (Some fid) = true) by (destruct fid; [contradiction | reflexivity]).
  rewrite Ht. unfold bind, get_file_logs, gets, ret.
  fold (error_logs_of fid w).
  eexists. split; [reflexivity|]. cbn [total_errors error_types recent_errors].
  split; [reflexivity|].
  destruct (count_error_types_total (error_logs_of fid w) [] (NoDup_nil _))
    as [Hsum Hkeys].
  cbn zeta in Hsum, Hkeys. fold (count_error_types (error_logs_of fid w)) in *.
  split; [exact Hkeys|]. split.
  - rewrite Hsum. cbn [dict_total fold_right]. split; [lia|].
    pose proof (filter_length_le
      (fun log => match log_extra_data log with Some _ => true | None => false end)
      (error_logs_of fid w)). lia.
  - unfold last_ten.
    destruct (10 <? List.length (error_logs_of fid w))%nat eqn:E.
    + apply Nat.ltb_lt in E. split.
      * rewrite length_skipn. lia.
      * exists (firstn (List.length (error_logs_of fid w) - 10) (error_logs_of fid w)).
        now rewrite firstn_skipn.
    + apply Nat.ltb_ge in E. split; [lia|]. now exists [].
Qed.

Lemma get_error_summary_counts_witness :
  exists summary,
    get_error_summary (Some "f1") failed_after_chunking
    = (Return summary, failed_after_chunking)
    /\ total_errors summary
       = Z.of_nat (List.length (error_logs_of "f1" failed_after_chunking)).
Proof.
  destruct (get_error_summary_counts "f1" failed_after_chunking)
    as [summary [E [Ht _]]].
  - discriminate.
  - exists summary. split; [exact E | exact Ht].
Defined.

(** ** The converter *)

Lemma update_status_converted fid stage count u w p key :
  item_at fid stage count u w ->
  exists w',
    update_status fid "converted" None [kw_markdown_path (Some p); kw_other key] w
    = (Return true, w')
    /\ converted_at fid p count w'
    /\ item_at fid "converted" count u w'
    /\ disk w' = disk w.
Proof.
  intros [row [Hfind [Hst [Hrc Hurl]]]].
  eexists. split; [apply (update_status_found _ _ _ _ _ _ Hfind)|].
  split; [|split; [|reflexivity]].
  - eexists. cbn [files with_files].
    rewrite find_update_first_same by (intro; apply apply_update_file_id).
    rewrite Hfind. split; [reflexivity|]. cbn. repeat split. exact Hrc.
  - eexists. cbn [files with_files].
    rewrite find_update_first_same by (intro; apply apply_update_file_id).
    rewrite Hfind. split; [reflexivity|]. cbn. repeat split; assumption.
Qed.

Lemma convert_succeeds fid stage count u w file_path converter :
  item_at fid stage count u w ->
  existsb (String.eqb file_path) (disk w) = true ->
  outcome converter = Return true ->
  exists w',
    DocumentConverter.convert_to_markdown file_path fid converter w
    = (Return (DocumentConverter.output_path fid), w')
    /\ converted_at fid (DocumentConverter.output_path fid) count w'
    /\ item_at fid "converted" count u w'
    /\ disk w'
       = (if existsb (String.eqb (DocumentConverter.output_path fid)) (disk w)
          then disk w
          else disk w ++ [DocumentConverter.output_path fid])%list.
Proof.
  intros Hitem Hsrc Hout.
  unfold DocumentConverter.convert_to_markdown,
    DocumentConverter.convert_to_markdown_try, try_except.
  destruct (update_status_item _ _ _ _ _ "converting" None Hitem)
    as [w1 [E1 [H1 _]]].
  unfold bind at 1. rewrite E1. cbn [truthy] in H1.
  assert (D1 : disk w1 = disk w).
  { unfold update_status in E1. destruct (find_file fid (files w));
      inversion E1; reflexivity. }
  destruct (add_log_item _ _ _ _ _ fid "INFO"
              ("开始转换文档: " ++ fid ++ ", 文件路径: " ++ file_path) None None H1)
    as [w2 [E2 [H2 _]]].
  assert (D2 : disk w2 = disk w1) by (inversion E2; reflexivity).
  unfold bind at 1. rewrite E2.
  unfold bind at 1, os_path_exists, gets. rewrite D2, D1, Hsrc. cbn [negb].
  destruct (elapse_item _ _ _ _ _ (took converter) H2) as [w3 [E3 [H3 _]]].
  assert (D3 : disk w3 = disk w2) by (inversion E3; reflexivity).
  unfold bind at 1. rewrite E3. rewrite Hout.
  destruct (write_file_item _ _ _ _ _ (DocumentConverter.output_path fid) H3)
    as [w4 [E4 [H4 _]]].
  assert (D4 : disk w4
               = (if existsb (String.eqb (DocumentConverter.output_path fid)) (disk w3)
                  then disk w3
                  else disk w3 ++ [DocumentConverter.output_path fid])%list)
    by (inversion E4; reflexivity).
  unfold bind at 1. rewrite E4.
  destruct (update_status_converted _ _ _ _ _
              (DocumentConverter.output_path fid) "convert_time" H4)
    as [w5 [E5 [H5 [I5 D5]]]].
  unfold bind at 1. rewrite E5.
  unfold bind at 1. cbn [add_log modify ret].
  eexists. split; [reflexivity|]. split; [|split].
  - destruct H5 as [row H5]. exists row. exact H5.
  - destruct I5 as [row I5]. exists row. exact I5.
  - cbn [disk with_logs]. rewrite D5, D4, D3, D2, D1. reflexivity.
Qed.

(** Re-running the conversion keeps one artifact.  Both runs return the
    path derived from the identifier, the markdown is on disk after the
    first run, and the second run leaves the disk exactly as the first left
    it, with the item converted and its counter unchanged. *)
Theorem convert_rerun_same_artifact
    (fid stage : string) (count : Z) (u : option string) (w : World)
    (file_path : string) (first second : attempt bool)
    (Hitem : item_at fid stage count u w)
    (Hsrc : existsb (String.eqb file_path) (disk w) = true)
    (Hfirst : outcome first = Return true)
    (Hsecond : outcome second = Return true) :
  let r1 := DocumentConverter.convert_to_markdown file_path fid first w in
  let r2 := DocumentConverter.convert_to_markdown file_path fid second (snd r1) in
  fst r1 = Return (DocumentConverter.output_path fid)
  /\ fst r2 = Return (DocumentConverter.output_path fid)
  /\ In (DocumentConverter.output_path fid) (disk (snd r1))
  /\ disk (snd r2) = disk (snd r1)
  /\ converted_at fid (DocumentConverter.output_path fid) count (snd r2).
Proof.
  intros r1 r2. subst r1 r2.
  destruct (convert_succeeds _ _ _ _ _ file_path first Hitem Hsrc Hfirst)
    as [w1 [E1 [C1 [I1 D1]]]].
  rewrite E1. cbn [fst snd].
  assert (Hin : In (DocumentConverter.output_path fid) (disk w1)).
  { rewrite D1.
    destruct (existsb (String.eqb (DocumentConverter.output_path fid)) (disk w))
      eqn:E.
    - apply existsb_exists in E. destruct E as [q [Hq Heq]].
      apply String.eqb_eq in Heq. now subst q.
    - apply in_or_app. right. now left. }
  assert (Hsrc1 : existsb (String.eqb file_path) (disk w1) = true).
  { apply existsb_exists in Hsrc. destruct Hsrc as [q [Hq Heq]].
    apply existsb_exists. exists q. split; [|exact Heq]. rewrite D1.
    destruct (existsb _ (disk w)); [exact Hq|]. apply in_or_app. now left. }
  destruct (convert_succeeds _ _ _ _ _ file_path second I1 Hsrc1 Hsecond)
    as [w2 [E2 [C2 [I2 D2]]]].
  rewrite E2. cbn [fst snd].
  split; [reflexivity|]. split; [reflexivity|]. split; [exact Hin|].
  split; [|exact C2]. rewrite D2.
  assert (Hex : existsb (String.eqb (DocumentConverter.output_path fid)) (disk w1)
                = true).
  { apply existsb_exists. exists (DocumentConverter.output_path fid).
    split; [exact Hin | apply String.eqb_refl]. }
  now rewrite Hex.
Qed.

Lemma convert_rerun_same_artifact_witness :
  let w := mk_world [sample_row "f1" "downloaded" 0] []
                    ["downloads/temp/f1_f1.pdf"] 50 [] in
  let r1 := DocumentConverter.convert_to_markdown "downloads/temp/f1_f1.pdf" "f1"
              (mk_attempt 7 (Return true)) w in
  let r2 := DocumentConverter.convert_to_markdown "downloads/temp/f1_f1.pdf" "f1"
              (mk_attempt 8 (Return true)) (snd r1) in
  disk (snd r2) = disk (snd r1).
Proof.
  intros w r1 r2.
  apply (convert_rerun_same_artifact "f1" "downloaded" 0 (Some "http://files/f1") w
           "downloads/temp/f1_f1.pdf"
           (mk_attempt 7 (Return true)) (mk_attempt 8 (Return true))).
  - exists (sample_row "f1" "downloaded" 0). repeat split; reflexivity.
  - reflexivity.
  - reflexivity.
  - reflexivity.
Defined.

(** A conversion whose source file is missing fails before the converter
    is called: the clock does not move and the disk is as before, the item
    is marked failed with the failure counted once, and the exception names
    the missing path. *)
Theorem convert_without_source_fails_early
    (fid stage : string) (count : Z) (u : option string) (w : World)
    (file_path : string) (converter : attempt bool)
    (Hitem : item_at fid stage count u w)
    (Hsrc : existsb (String.eqb file_path) (disk w) = false) :
  exists w',
    DocumentConverter.convert_to_markdown file_path fid converter w
    = (Raise (Exception ("文档转换失败: " ++ "源文件不存在: " ++ file_path)), w')
    /\ item_at fid "failed" (count + 1) u w'
    /\ clock w' = clock w /\ disk w' = disk w.
Proof.
  unfold DocumentConverter.convert_to_markdown,
    DocumentConverter.convert_to_markdown_try, try_except.
  destruct (update_status_item _ _ _ _ _ "converting" None Hitem)
    as [w1 [E1 [H1 [_ C1]]]].
  unfold bind at 1. rewrite E1. cbn [truthy] in H1.
  assert (D1 : disk w1 = disk w).
  { unfold update_status in E1. destruct (find_file fid (files w));
      inversion E1; reflexivity. }
  destruct (add_log_item _ _ _ _ _ fid "INFO"
              ("开始转换文档: " ++ fid ++ ", 文件路径: " ++ file_path) None None H1)
    as [w2 [E2 [H2 [_ C2]]]].
  assert (D2 : disk w2 = disk w1) by (inversion E2; reflexivity).
  unfold bind at 1. rewrite E2.
  unfold bind at 1, os_path_exists, gets. rewrite D2, D1, Hsrc. cbn [negb].
  unfold raise at 1. cbn [exc_msg Exception].
  destruct (update_status_item _ _ _ _ _ "failed"
              (Some ("文档转换失败: " ++ "源文件不存在: " ++ file_path)) H2)
    as [w3 [E3 [H3 [_ C3]]]].
  cbn [truthy append] in H3.
  assert (D3 : disk w3 = disk w2).
  { unfold update_status in E3. destruct (find_file fid (files w2));
      inversion E3; reflexivity. }
  unfold bind at 1. rewrite E3.
  unfold bind at 1. cbn [add_log modify raise].
  eexists. split; [reflexivity|]. split; [exact H3|].
  cbn [clock disk with_logs]. split; congruence.
Qed.

Lemma convert_without_source_fails_early_witness :
  exists w',
    DocumentConverter.convert_to_markdown "downloads/temp/gone.pdf" "f1"
      (mk_attempt 7 (Return true)) (sample_world [sample_row "f1" "downloaded" 0])
    = (Raise (Exception ("文档转换失败: " ++ "源文件不存在: "
                         ++ "downloads/temp/gone.pdf")), w')
    /\ item_at "f1" "failed" (0 + 1) (Some "http://files/f1") w'
    /\ clock w' = clock (sample_world [sample_row "f1" "downloaded" 0])
    /\ disk w' = disk (sample_world [sample_row "f1" "downloaded" 0]).
Proof.
  apply (convert_without_source_fails_early "f1" "downloaded" 0).
  - exists (sample_row "f1" "downloaded" 0). repeat split; reflexivity.
  - reflexivity.
Defined.
